(** * Verification of the ephemeral secret-sharing worker (src/index.js)

    The worker is a Hono application with one rate-limiting middleware and
    two routes, [POST /api/create] and [GET /api/secret/:id], on top of a
    TTL-capable key-value binding.  The development below embeds

    - the pure helpers ([generateId], [validatePayload], [validateSecretId],
      the effective-TTL expression),
    - the JavaScript value operations those helpers rely on (truthiness,
      property-key conversion, property lookup through [Object.prototype],
      [Math.max]),
    - the handlers, in a small state-and-exception monad over the key-value
      store, the console and the list of [waitUntil] tasks,

    and then states the properties of the specification over them.  The
    source text holds the module twice; the embedding follows the first,
    current one (the one that answers 503 when id allocation is
    exhausted). *)

From Stdlib Require Import ZArith Lia List Bool Ascii String DecimalString.
From Stdlib.Strings Require Import Byte.
From stdpp Require Import gmap strings list.

Set Warnings "-register-all".

Local Open Scope string_scope.
Local Open Scope list_scope.
Local Open Scope Z_scope.

(* ===================================================================== *)
(** ** Configuration constants *)
(* ===================================================================== *)

Record Config := {
  MAX_PAYLOAD_SIZE : Z;
  ID_LENGTH : nat;
  MAX_ID_LENGTH : Z;
  MIN_TTL : Z;
  DEFAULT_TTL : Z;
  READ_ONCE_TTL : Z;
  TTL_MAP : list (string * Z)
}.

Definition CONFIG : Config := {|
  MAX_PAYLOAD_SIZE := 10 * 1024 * 1024;
  ID_LENGTH := 16;
  MAX_ID_LENGTH := 32;
  MIN_TTL := 60;
  DEFAULT_TTL := 24 * 60 * 60;
  READ_ONCE_TTL := 24 * 60 * 60;
  TTL_MAP := [ ("5min", 5 * 60);
               ("30min", 30 * 60);
               ("1hour", 60 * 60);
               ("6hour", 6 * 60 * 60);
               ("1day", 24 * 60 * 60) ]
|}.

(* ===================================================================== *)
(** ** JavaScript values *)
(* ===================================================================== *)

(** Values that reach the handlers: what [JSON.parse] produces, plus
    [undefined] for a property that is absent.  Strings stand for sequences
    of code units, [String.length] for the [.length] property.  Numbers are
    the integer-valued ones. *)
Inductive jsval :=
| JUndefined
| JNull
| JBool (b : bool)
| JNum (z : Z)
| JStr (s : string)
| JArr (items : list jsval)
| JObj (fields : list (string * jsval)).

(** Results of numeric operations: an integer or [NaN]. *)
Inductive num := Num (z : Z) | NaN.

(** Exceptions that can be thrown and caught. *)
Inductive Exn :=
| TypeError (msg : string)
| SyntaxError
| KvError
| LimiterError.

Inductive Outcome (A : Type) :=
| Ok (a : A)
| Throw (e : Exn).
Arguments Ok {A} a.
Arguments Throw {A} e.

(** [ToBoolean]. *)
Definition truthy (v : jsval) : bool :=
  match v with
  | JUndefined | JNull => false
  | JBool b => b
  | JNum z => negb (z =? 0)
  | JStr s => negb (String.eqb s "")
  | JArr _ | JObj _ => true
  end.

(** [typeof v === 'string']. *)
Definition isString (v : jsval) : bool :=
  match v with JStr _ => true | _ => false end.

(** Own-property lookup in an object literal or a parsed object. *)
Fixpoint ownProperty {A} (fields : list (string * A)) (k : string) : option A :=
  match fields with
  | [] => None
  | (k', v) :: rest => if String.eqb k' k then Some v else ownProperty rest k
  end.

(** [const { name } = body]: throws on [null] and [undefined], reads the
    property otherwise; none of the three names read by the create handler
    is inherited from a prototype. *)
Definition getField (body : jsval) (name : string) : Outcome jsval :=
  match body with
  | JUndefined | JNull => Throw (TypeError "Cannot destructure")
  | JObj fields =>
      Ok (match ownProperty fields name with Some v => v | None => JUndefined end)
  | _ => Ok JUndefined
  end.

(** Decimal form of an integer-valued number. *)
Definition numberToString (z : Z) : string :=
  DecimalString.NilZero.string_of_int (Z.to_int z).

Fixpoint joinWith (sep : string) (parts : list string) : string :=
  match parts with
  | [] => ""
  | [p] => p
  | p :: rest => p +:+ sep +:+ joinWith sep rest
  end.

Fixpoint sequenceOutcome {A} (l : list (Outcome A)) : Outcome (list A) :=
  match l with
  | [] => Ok []
  | Ok a :: rest =>
      match sequenceOutcome rest with
      | Ok r => Ok (a :: r)
      | Throw e => Throw e
      end
  | Throw e :: _ => Throw e
  end.

(** [ToString] on the values above ([ToPrimitive] with hint string for
    arrays and objects).  An array joins its elements with a comma, with
    [null] and [undefined] printed as the empty string.  A parsed object
    has no callable own property: with an own ["toString"] the conversion
    finds nothing callable that returns a primitive and throws. *)
Fixpoint ToString (v : jsval) : Outcome string :=
  match v with
  | JUndefined => Ok "undefined"
  | JNull => Ok "null"
  | JBool true => Ok "true"
  | JBool false => Ok "false"
  | JNum z => Ok (numberToString z)
  | JStr s => Ok s
  | JArr items =>
      match sequenceOutcome
              (map (fun x => match x with
                             | JUndefined | JNull => Ok ""
                             | _ => ToString x
                             end) items) with
      | Ok parts => Ok (joinWith "," parts)
      | Throw e => Throw e
      end
  | JObj fields =>
      match ownProperty fields "toString" with
      | Some _ => Throw (TypeError "Cannot convert object to primitive value")
      | None => Ok "[object Object]"
      end
  end.

Definition ToPropertyKey (v : jsval) : Outcome string := ToString v.

(** Result of reading a property of [CONFIG.TTL_MAP]: an own number, a
    function or object found on [Object.prototype], or [undefined]. *)
Inductive propval :=
| PNum (z : Z)
| PInherited (name : string)
| PUndefined.

(** Property names every object literal inherits from [Object.prototype]. *)
Definition ObjectPrototypeNames : list string :=
  [ "constructor"; "hasOwnProperty"; "isPrototypeOf"; "propertyIsEnumerable";
    "toLocaleString"; "toString"; "valueOf"; "__proto__";
    "__defineGetter__"; "__defineSetter__";
    "__lookupGetter__"; "__lookupSetter__" ].

Definition inObjectPrototype (k : string) : bool :=
  existsb (String.eqb k) ObjectPrototypeNames.

(** [obj[k]] for an object literal [obj] with number-valued own properties:
    own properties first, then the prototype. *)
Definition getProperty (obj : list (string * Z)) (k : string) : propval :=
  match ownProperty obj k with
  | Some z => PNum z
  | None => if inObjectPrototype k then PInherited k else PUndefined
  end.

Definition truthyProp (p : propval) : bool :=
  match p with
  | PNum z => negb (z =? 0)
  | PInherited _ => true
  | PUndefined => false
  end.

(** [a || b]. *)
Definition orElse (a b : propval) : propval :=
  if truthyProp a then a else b.

(** [ToNumber]: functions and plain objects convert to [NaN]. *)
Definition ToNumber (p : propval) : num :=
  match p with
  | PNum z => Num z
  | PInherited _ => NaN
  | PUndefined => NaN
  end.

(** [Math.max(a, b)]: [NaN] as soon as one argument converts to [NaN]. *)
Definition Math_max (a b : propval) : num :=
  match ToNumber a, ToNumber b with
  | Num x, Num y => Num (Z.max x y)
  | _, _ => NaN
  end.

(* ===================================================================== *)
(** ** Pure helpers of the worker *)
(* ===================================================================== *)

Definition characters : string :=
  "ABCDEFGHIJKLMNOPQRSTUVWXYZabcdefghijklmnopqrstuvwxyz0123456789".

(** [characters[v % characters.length]], as the one-character string that
    [join] concatenates (nothing for an index out of range). *)
Definition charOf (v : Byte.byte) : string :=
  match String.get (N.to_nat (Byte.to_N v) mod String.length characters) characters with
  | Some c => String c EmptyString
  | None => ""
  end.

(** The [map]/[join] of [generateId], applied to the filled array. *)
Definition idOfBytes (randomValues : list Byte.byte) : string :=
  joinWith "" (map charOf randomValues).

(** The two shapes returned by the validators: [{ valid: true }] and
    [{ valid: false, error }]. *)
Inductive Validation :=
| Valid
| Invalid (error : string).

Definition validatePayload (encryptedPayload : jsval) : Validation :=
  if negb (truthy encryptedPayload) then Invalid "Encrypted payload is required"
  else match encryptedPayload with
       | JStr s =>
           if Z.of_nat (String.length s) =? 0 then Invalid "Payload cannot be empty"
           else if Z.of_nat (String.length s) >? MAX_PAYLOAD_SIZE CONFIG
                then Invalid "Payload too large"
                else Valid
       | _ => Invalid "Invalid payload type"
       end.

Definition isAlnum (c : ascii) : bool :=
  let n := N_of_ascii c in
  ((65 <=? n) && (n <=? 90) || (97 <=? n) && (n <=? 122)
   || (48 <=? n) && (n <=? 57))%N.

Fixpoint allAlnum (s : string) : bool :=
  match s with
  | EmptyString => true
  | String c rest => isAlnum c && allAlnum rest
  end.

(** [/^[A-Za-z0-9]+$/.test(id)]. *)
Definition alnumPlus (id : string) : bool :=
  match id with
  | EmptyString => false
  | _ => allAlnum id
  end.

(** The route parameter is a string; [!id] is then emptiness. *)
Definition validateSecretId (id : string) : Validation :=
  if negb (truthy (JStr id)) || negb (isString (JStr id)) then Invalid "Invalid ID"
  else if Z.of_nat (String.length id) >? MAX_ID_LENGTH CONFIG
       then Invalid "Invalid ID length"
       else if negb (alnumPlus id) then Invalid "Invalid ID format"
            else Valid.

(** The [effectiveKvTtl] expression of the create handler. *)
Definition effectiveKvTtl (expiryOption readOnce : jsval) : Outcome num :=
  if truthy readOnce
  then Ok (Math_max (PNum (READ_ONCE_TTL CONFIG)) (PNum (MIN_TTL CONFIG)))
  else match ToPropertyKey expiryOption with
       | Ok k =>
           Ok (Math_max (orElse (getProperty (TTL_MAP CONFIG) k)
                                (PNum (DEFAULT_TTL CONFIG)))
                        (PNum (MIN_TTL CONFIG)))
       | Throw e => Throw e
       end.

(* ===================================================================== *)
(** ** The world of a request: store, console, background tasks *)
(* ===================================================================== *)

Record Metadata := {
  readOnce : bool;
  creationTime : Z;
  userExpiryOption : jsval
}.

(** What the key-value binding holds under a key. *)
Record Entry := {
  value : string;
  expirationTtl : Z;
  metadata : option Metadata
}.

(** Calls made on the key-value binding, in order. *)
Inductive KvOp :=
| OpGet (key : string)
| OpGetWithMetadata (key : string)
| OpPut (key : string) (v : string) (ttl : num) (md : Metadata)
| OpDelete (key : string).

Inductive LogLine :=
| Log (label : string)
| LogErr (label : string) (e : Exn).

(** Promises handed to [executionCtx.waitUntil]. *)
Inductive Task :=
| DeleteTask (id : string).

(** What the platform decides for a request: the random bytes of each
    [getRandomValues] call (call number, position), the clock, and which
    calls on the key-value binding reject (by call number). *)
Record Env := {
  randomBytes : nat -> nat -> Byte.byte;
  clock : Z;
  kvFails : nat -> bool
}.

Record World := {
  kv : gmap string Entry;
  kvLog : list KvOp;
  draws : nat;
  console : list LogLine;
  pending : list Task
}.

Definition M (A : Type) : Type := Env -> World -> Outcome A * World.

Definition ret {A} (a : A) : M A := fun _ w => (Ok a, w).

Definition bind {A B} (m : M A) (k : A -> M B) : M B :=
  fun env w =>
    match m env w with
    | (Ok a, w') => k a env w'
    | (Throw e, w') => (Throw e, w')
    end.

Definition throw {A} (e : Exn) : M A := fun _ w => (Throw e, w).

(** [try { m } catch (e) { handler e }]. *)
Definition tryCatch {A} (m : M A) (handler : Exn -> M A) : M A :=
  fun env w =>
    match m env w with
    | (Ok a, w') => (Ok a, w')
    | (Throw e, w') => handler e env w'
    end.

Definition liftOutcome {A} (o : Outcome A) : M A := fun _ w => (o, w).

#[export] Instance M_ret : MRet M := @ret.
#[export] Instance M_bind : MBind M := fun A B k m => bind m k.

Definition addLine (line : LogLine) (w : World) : World :=
  {| kv := kv w; kvLog := kvLog w; draws := draws w;
     console := console w ++ [line]; pending := pending w |}.

Definition addTask (t : Task) (w : World) : World :=
  {| kv := kv w; kvLog := kvLog w; draws := draws w;
     console := console w; pending := pending w ++ [t] |}.

Definition addDraw (w : World) : World :=
  {| kv := kv w; kvLog := kvLog w; draws := S (draws w);
     console := console w; pending := pending w |}.

Definition addOp (op : KvOp) (w : World) : World :=
  {| kv := kv w; kvLog := kvLog w ++ [op]; draws := draws w;
     console := console w; pending := pending w |}.

Definition setStore (store : gmap string Entry) (w : World) : World :=
  {| kv := store; kvLog := kvLog w; draws := draws w;
     console := console w; pending := pending w |}.

Definition clearPending (w : World) : World :=
  {| kv := kv w; kvLog := kvLog w; draws := draws w;
     console := console w; pending := [] |}.

Definition console_error (line : LogLine) : M unit :=
  fun _ w => (Ok tt, addLine line w).

Definition waitUntil (t : Task) : M unit :=
  fun _ w => (Ok tt, addTask t w).

Definition Date_now : M Z := fun env w => (Ok (clock env), w).

(** [crypto.getRandomValues(new Uint8Array(length))]. *)
Definition getRandomValues (length : nat) : M (list Byte.byte) :=
  fun env w => (Ok (map (randomBytes env (draws w)) (seq 0 length)), addDraw w).

Definition generateId (length : nat) : M string :=
  randomValues ← getRandomValues length;
  ret (idOfBytes randomValues).

(** One call on the binding: it is recorded, and it rejects when the
    platform says so. *)
Definition kvCall (op : KvOp) : M unit :=
  fun env w =>
    if kvFails env (List.length (kvLog w))
    then (Throw KvError, addOp op w)
    else (Ok tt, addOp op w).

Definition readStore : M (gmap string Entry) := fun _ w => (Ok (kv w), w).

Definition writeStore (f : gmap string Entry -> gmap string Entry) : M unit :=
  fun _ w => (Ok tt, setStore (f (kv w)) w).

(** [SECRETS_KV.get(key)]: the value, or [null]. *)
Definition SECRETS_KV_get (key : string) : M jsval :=
  kvCall (OpGet key);;
  store ← readStore;
  ret (match store !! key with
       | Some e => JStr (value e)
       | None => JNull
       end).

(** [SECRETS_KV.getWithMetadata(key)]: [{ value, metadata }], with a
    [null] value when the key is absent. *)
Definition SECRETS_KV_getWithMetadata (key : string) : M (jsval * option Metadata) :=
  kvCall (OpGetWithMetadata key);;
  store ← readStore;
  ret (match store !! key with
       | Some e => (JStr (value e), metadata e)
       | None => (JNull, None)
       end).

(** [SECRETS_KV.put(key, value, { expirationTtl, metadata })].  The
    backend is a service of the platform: it stores value and metadata
    together and, as the second copy of the module notes where it floors
    the lifetime and as the specification says, rejects a lifetime below
    60 seconds (a lifetime that is not a number is not at least 60). *)
Definition SECRETS_KV_put (key : jsval) (v : jsval) (ttl : num) (md : Metadata) : M unit :=
  match key, v with
  | JStr k, JStr s =>
      kvCall (OpPut k s ttl md);;
      match ttl with
      | Num z =>
          if 60 <=? z
          then writeStore (fun store =>
                 <[k := {| value := s; expirationTtl := z; metadata := Some md |}]> store)
          else throw KvError
      | NaN => throw KvError
      end
  | _, _ => throw (TypeError "KV put: unsupported key or value")
  end.

(** [SECRETS_KV.delete(key)]: idempotent. *)
Definition SECRETS_KV_delete (key : string) : M unit :=
  kvCall (OpDelete key);;
  writeStore (fun store => delete key store).

(* ===================================================================== *)
(** ** Responses *)
(* ===================================================================== *)

Inductive Body :=
| ErrorBody (error : string)
| CreatedBody (secretId : jsval)
| SecretBody (encryptedPayload : jsval) (md : option Metadata).

Record Response := { status : Z; body : Body }.

(** [c.json(body, status)]; the status defaults to 200. *)
Definition c_json (b : Body) (st : Z) : Response := {| status := st; body := b |}.

(* ===================================================================== *)
(** ** POST /api/create *)
(* ===================================================================== *)

(** The [while (attempts < 3)] loop; [fuel] bounds the unfolding and 3 is
    enough from [attempts = 0] (see [allocLoop_fuel]). *)
Fixpoint allocLoop (fuel : nat) (attempts : Z) (secretId : jsval) : M (Z * jsval) :=
  match fuel with
  | O => ret (attempts, secretId)
  | S fuel' =>
      if attempts <? 3 then
        id ← generateId (ID_LENGTH CONFIG);
        existing ← SECRETS_KV_get id;
        if negb (truthy existing) then ret (attempts, JStr id)
        else allocLoop fuel' (attempts + 1) (JStr id)
      else ret (attempts, secretId)
  end.

(** [c.req.json()]: rejects on a body that is not JSON ([None]). *)
Definition c_req_json (raw : option jsval) : M jsval :=
  match raw with
  | Some v => ret v
  | None => throw SyntaxError
  end.

Definition createHandler (raw : option jsval) : M Response :=
  tryCatch
    (parsed ← tryCatch (b ← c_req_json raw; ret (inl b))
                       (fun _ => ret (inr (c_json (ErrorBody "Invalid JSON") 400)));
     match parsed with
     | inr response => ret response
     | inl body =>
         encryptedPayload ← liftOutcome (getField body "encryptedPayload");
         expiryOption ← liftOutcome (getField body "expiryOption");
         readOnce ← liftOutcome (getField body "readOnce");
         match validatePayload encryptedPayload with
         | Invalid error => ret (c_json (ErrorBody error) 400)
         | Valid =>
             '(attempts, secretId) ← allocLoop 3 0 JUndefined;
             if 3 <=? attempts then
               console_error (Log "ID collision exhaust");;
               ret (c_json (ErrorBody "Service busy, please try again") 503)
             else
               effectiveTtl ← liftOutcome (effectiveKvTtl expiryOption readOnce);
               now ← Date_now;
               let metadata := {| readOnce := truthy readOnce;
                                  creationTime := now;
                                  userExpiryOption := expiryOption |} in
               SECRETS_KV_put secretId encryptedPayload effectiveTtl metadata;;
               ret (c_json (CreatedBody secretId) 200)
         end
     end)
    (fun e =>
       console_error (LogErr "Create Error:" e);;
       ret (c_json (ErrorBody "Failed to create secret") 500)).

(* ===================================================================== *)
(** ** GET /api/secret/:id *)
(* ===================================================================== *)

(** [metadata?.readOnce]. *)
Definition optReadOnce (md : option Metadata) : bool :=
  match md with
  | Some m => readOnce m
  | None => false
  end.

Definition readHandler (id : string) : M Response :=
  tryCatch
    (match validateSecretId id with
     | Invalid error => ret (c_json (ErrorBody error) 400)
     | Valid =>
         '(value, metadata) ← SECRETS_KV_getWithMetadata id;
         if negb (truthy value) then
           ret (c_json (ErrorBody "Secret not found or expired") 404)
         else
           (if optReadOnce metadata then waitUntil (DeleteTask id) else ret tt);;
           ret (c_json (SecretBody value metadata) 200)
     end)
    (fun e =>
       console_error (LogErr "Retrieve Error:" e);;
       ret (c_json (ErrorBody "Failed to retrieve secret") 500)).

(** A task given to [waitUntil] settles after the response:
    [SECRETS_KV.delete(id).catch(err => console.error('Delete Error:', err))]. *)
Definition runTask (t : Task) : M unit :=
  match t with
  | DeleteTask id =>
      tryCatch (SECRETS_KV_delete id)
               (fun err => console_error (LogErr "Delete Error:" err))
  end.

Fixpoint runTasks (ts : list Task) : M unit :=
  match ts with
  | [] => ret tt
  | t :: rest => runTask t;; runTasks rest
  end.

Definition takePending : M (list Task) :=
  fun _ w => (Ok (pending w), clearPending w).

(** The background work left by a request runs to completion. *)
Definition settle : M unit :=
  ts ← takePending;
  runTasks ts.

(* ===================================================================== *)
(** ** Rate-limiting middleware *)
(* ===================================================================== *)

Record LimitResult := { success : bool }.

(** A rate-limiter binding: [limit({ key })] resolves to a result or
    rejects.  Counters and windows belong to the binding. *)
Record Limiter := { limit : string -> Outcome LimitResult }.

Record Context := {
  method : string;
  headers : list (string * string);
  LIMITER_SHORT : option Limiter;
  LIMITER_OK : option Limiter
}.

(** [c.req.header(name) || fallback]. *)
Definition headerOr (c : Context) (name fallback : string) : string :=
  match ownProperty (headers c) name with
  | Some h => if truthy (JStr h) then h else fallback
  | None => fallback
  end.

(** [Promise.all] of two promises: both results, or a rejection. *)
Definition Promise_all2 {A B} (a : Outcome A) (b : Outcome B) : Outcome (A * B) :=
  match a, b with
  | Ok x, Ok y => Ok (x, y)
  | Throw e, _ => Throw e
  | Ok _, Throw e => Throw e
  end.

Section Admission.

(** Hex form of the SHA-256 digest, provided by the platform. *)
Variable sha256hex : string -> string.

Definition getFingerprint (c : Context) : string :=
  let ip := headerOr c "CF-Connecting-IP" "0.0.0.0" in
  let ua := headerOr c "User-Agent" "unknown" in
  sha256hex (ip +:+ "-" +:+ ua).

Definition rateLimit (c : Context) (next : M Response) : M Response :=
  if String.eqb (method c) "OPTIONS" then next
  else
    match LIMITER_SHORT c, LIMITER_OK c with
    | Some limiterShort, Some limiterOk =>
        tryCatch
          (fingerprint ← ret (getFingerprint c);
           '(shortLimit, longLimit) ←
             liftOutcome (Promise_all2 (limit limiterShort fingerprint)
                                       (limit limiterOk fingerprint));
           if negb (success shortLimit) then
             ret (c_json (ErrorBody "Too Many Requests (Rate limit exceeded: 30s)") 429)
           else if negb (success longLimit) then
             ret (c_json (ErrorBody "Too Many Requests (Rate limit exceeded: Daily)") 429)
           else next)
          (fun e =>
             console_error (LogErr "Rate Limit Error:" e);;
             next)
    | _, _ =>
        console_error (Log "Rate Limiter bindings missing");;
        ret (c_json (ErrorBody "Server configuration error") 500)
    end.

End Admission.

(* ===================================================================== *)
(** ** Notions used by the statements *)
(* ===================================================================== *)

(** Every value a [Uint8Array] element can take. *)
Definition allBytes : list Byte.byte :=
  flat_map (fun n => match Byte.of_nat n with Some b => [b] | None => [] end)
           (seq 0 256).

(** Number of byte values that [generateId] maps to the character [ch]. *)
Definition preimageCount (ch : string) : nat :=
  List.length (filter (fun v => String.eqb (charOf v) ch) allBytes).

(** The character of the alphabet at index [i], as a string. *)
Definition alphabetAt (i : nat) : string :=
  match String.get i characters with
  | Some c => String c EmptyString
  | None => ""
  end.

(** What [SECRETS_KV.get(id)] resolves to on a store. *)
Definition lookupValue (store : gmap string Entry) (id : string) : jsval :=
  match store !! id with
  | Some e => JStr (value e)
  | None => JNull
  end.

(** The create handler takes an id as occupied when the lookup is truthy. *)
Definition occupied (store : gmap string Entry) (id : string) : bool :=
  truthy (lookupValue store id).

(** The candidate id drawn by the [n]-th call of [getRandomValues]. *)
Definition candidate (env : Env) (n : nat) : string :=
  idOfBytes (map (randomBytes env n) (seq 0 (ID_LENGTH CONFIG))).

(** The lifetime the TTL table assigns to a key: its own entry, or the
    default. *)
Definition tableOrDefault (k : string) : Z :=
  match ownProperty (TTL_MAP CONFIG) k with
  | Some z => z
  | None => DEFAULT_TTL CONFIG
  end.

(** Every stored value is a non-empty string: what the create handler
    writes, and what lets a lookup tell an occupied key from a free one. *)
Definition storeWellFormed (store : gmap string Entry) : Prop :=
  forall id e, store !! id = Some e -> value e <> "".

(** The lookups of the first [n] candidates drawn from a world. *)
Definition getsOf (env : Env) (w : World) (n : nat) : list KvOp :=
  map (fun i => OpGet (candidate env (draws w + i))) (seq 0 n).

(** The world reached by [n] rounds of the allocation loop: [n] ids
    drawn, each looked up once. *)
Definition afterAttempts (env : Env) (w : World) (n : nat) : World :=
  {| kv := kv w;
     kvLog := kvLog w ++ getsOf env w n;
     draws := draws w + n;
     console := console w;
     pending := pending w |}.

(** The first [n] candidates are all taken. *)
Definition allCollide (env : Env) (w : World) (n : nat) : Prop :=
  forall i, (i < n)%nat -> occupied (kv w) (candidate env (draws w + i)) = true.

(** The metadata object built by the create handler. *)
Definition createMetadata (env : Env) (expiryOption readOnce : jsval) : Metadata :=
  {| readOnce := truthy readOnce; creationTime := clock env;
     userExpiryOption := expiryOption |}.

(** A platform without faults whose random source returns zero bytes, and
    the world before any request. *)
Definition quietEnv : Env :=
  {| randomBytes := fun _ _ => x00; clock := 1700000000000;
     kvFails := fun _ => false |}.

Definition emptyWorld : World :=
  {| kv := ∅; kvLog := []; draws := 0; console := []; pending := [] |}.

(** Requests used as examples: scenario A of the specification, and a
    read-once secret. *)
Definition sampleBody : jsval :=
  JObj [("encryptedPayload", JStr "abc123"); ("expiryOption", JStr "5min");
        ("readOnce", JBool false)].

Definition onceBody : jsval :=
  JObj [("encryptedPayload", JStr "x"); ("readOnce", JBool true)].

Definition afterFirstCreate : World :=
  snd (createHandler (Some sampleBody) quietEnv emptyWorld).

Definition afterOnceCreate : World :=
  snd (createHandler (Some onceBody) quietEnv emptyWorld).

Definition firstId : string := "AAAAAAAAAAAAAAAA".

(** Limiter bindings and a request context used as examples; the digest
    is replaced by the identity. *)
Definition denyLimiter : Limiter :=
  {| limit := fun _ => Ok {| success := false |} |}.

Definition allowLimiter : Limiter :=
  {| limit := fun _ => Ok {| success := true |} |}.

Definition brokenLimiter : Limiter :=
  {| limit := fun _ => Throw LimiterError |}.

Definition getContext (short long : option Limiter) : Context :=
  {| method := "GET"; headers := [("CF-Connecting-IP", "203.0.113.7")];
     LIMITER_SHORT := short; LIMITER_OK := long |}.

(** The limiter cannot be consulted for a request: a binding is missing,
    or a call rejects. *)
Definition limiterUnavailable (sha256hex : string -> string) (c : Context) : Prop :=
  LIMITER_SHORT c = None \/ LIMITER_OK c = None \/
  exists ls ll e,
    LIMITER_SHORT c = Some ls /\ LIMITER_OK c = Some ll /\
    Promise_all2 (limit ls (getFingerprint sha256hex c))
                 (limit ll (getFingerprint sha256hex c)) = Throw e.

(** Fail-open: with the limiter unavailable the request goes to the next
    handler, after one more line on the console. *)
Definition failsOpen (sha256hex : string -> string) : Prop :=
  forall c next env w,
    String.eqb (method c) "OPTIONS" = false ->
    limiterUnavailable sha256hex c ->
    exists line, rateLimit sha256hex c next env w = next env (addLine line w).

(** The mapping of [generateId] is unbiased when all the characters of the
    alphabet have the same number of preimages among the byte values. *)
Definition unbiased : Prop :=
  forall i j, (i < 62)%nat -> (j < 62)%nat ->
    preimageCount (alphabetAt i) = preimageCount (alphabetAt j).

(** What one run of the allocation loop establishes, from [attempts] and
    [secretId] on entry, after [n] rounds with [fuel] unfoldings. *)
Definition allocPost (env : Env) (w : World) (attempts : Z) (sid : jsval)
           (fuel n : nat) (r : Outcome (Z * jsval)) : Prop :=
  match r with
  | Throw e =>
      exists m, n = S m /\ e = KvError /\ allCollide env w m /\
                kvFails env (List.length (kvLog w) + m) = true
  | Ok (a, s) =>
      (exists m, n = S m /\ allCollide env w m /\
                 a = attempts + Z.of_nat m /\ a < 3 /\
                 s = JStr (candidate env (draws w + m)) /\
                 occupied (kv w) (candidate env (draws w + m)) = false)
      \/ (allCollide env w n /\ a = attempts + Z.of_nat n /\
          (3 <= a \/ n = fuel) /\ (n = 0%nat -> s = sid))
  end.

(* ===================================================================== *)
(** ** The second copy of the module *)
(* ===================================================================== *)

(** The source text carries an older copy of the worker after the current
    one.  It shares the configuration; its helpers are written as loops
    and named functions, its messages differ, its create handler uses a
    [do ... while] loop and answers 500 on exhaustion, and its [catch]
    blocks put the message of the error in the response. *)
Module Legacy.

(** [characters.charAt(v % charactersLength)]: the empty string out of
    range. *)
Definition charAt (v : Byte.byte) : string :=
  match String.get (N.to_nat (Byte.to_N v) mod String.length characters) characters with
  | Some c => String c EmptyString
  | None => ""
  end.

(** The [for] loop of [generateId] over the filled array:
    [result += characters.charAt(...)], from the empty string. *)
Definition idOfBytes (randomValues : list Byte.byte) : string :=
  fold_left (fun result v => result +:+ charAt v) randomValues "".

Definition generateId (length : nat) : M string :=
  randomValues ← getRandomValues length;
  ret (idOfBytes randomValues).

Definition validatePayload (encryptedPayload : jsval) : Validation :=
  if negb (truthy encryptedPayload) then Invalid "Encrypted payload is required"
  else match encryptedPayload with
       | JStr s =>
           if Z.of_nat (String.length s) =? 0 then Invalid "Payload cannot be empty"
           else if Z.of_nat (String.length s) >? MAX_PAYLOAD_SIZE CONFIG
                then Invalid "Invalid payload or payload too large"
                else Valid
       | _ => Invalid "Invalid payload type"
       end.

Definition validateSecretId (id : string) : Validation :=
  if negb (truthy (JStr id)) then Invalid "Secret ID is required"
  else if negb (isString (JStr id)) then Invalid "Invalid secret ID type"
  else if Z.of_nat (String.length id) >? MAX_ID_LENGTH CONFIG
       then Invalid "Invalid secret ID format"
       else if negb (alnumPlus id) then Invalid "Invalid secret ID format"
            else Valid.

(** [getEffectiveTTL(expiryOption, readOnce)]. *)
Definition getEffectiveTTL (expiryOption readOnce : jsval) : Outcome num :=
  match (if truthy readOnce
         then Ok (PNum (READ_ONCE_TTL CONFIG))
         else match ToPropertyKey expiryOption with
              | Ok k => Ok (orElse (getProperty (TTL_MAP CONFIG) k)
                                   (PNum (DEFAULT_TTL CONFIG)))
              | Throw e => Throw e
              end) with
  | Ok effectiveKvTtl => Ok (Math_max effectiveKvTtl (PNum (MIN_TTL CONFIG)))
  | Throw e => Throw e
  end.

(** A response of the older copy: one of the shapes of the current module,
    or a 500 that carries [details: e.message]. *)
Inductive Answer :=
| Same (r : Response)
| Detailed (st : Z) (error : string) (details : Exn).

(** The [do { ... } while (attempts < maxAttempts)] loop, [maxAttempts]
    being 3; [fuel] bounds the unfolding. *)
Fixpoint allocLoop (fuel : nat) (attempts : Z) (secretId : jsval) : M (Z * jsval) :=
  match fuel with
  | O => ret (attempts, secretId)
  | S fuel' =>
      id ← generateId (ID_LENGTH CONFIG);
      existing ← SECRETS_KV_get id;
      if negb (truthy existing) then ret (attempts, JStr id)
      else
        let attempts := attempts + 1 in
        if attempts <? 3 then allocLoop fuel' attempts (JStr id)
        else ret (attempts, JStr id)
  end.

Definition createHandler (raw : option jsval) : M Answer :=
  tryCatch
    (parsed ← tryCatch (b ← c_req_json raw; ret (inl b))
                       (fun _ => ret (inr (Same (c_json (ErrorBody "Invalid JSON format") 400))));
     match parsed with
     | inr response => ret response
     | inl body =>
         encryptedPayload ← liftOutcome (getField body "encryptedPayload");
         expiryOption ← liftOutcome (getField body "expiryOption");
         readOnce ← liftOutcome (getField body "readOnce");
         match validatePayload encryptedPayload with
         | Invalid error => ret (Same (c_json (ErrorBody error) 400))
         | Valid =>
             '(attempts, secretId) ← allocLoop 3 0 JUndefined;
             if 3 <=? attempts then
               console_error (Log "Failed to generate unique ID after multiple attempts");;
               ret (Same (c_json (ErrorBody "Failed to create secret") 500))
             else
               creationTime ← Date_now;
               effectiveTtl ← liftOutcome (getEffectiveTTL expiryOption readOnce);
               let metadata := {| readOnce := truthy readOnce;
                                  creationTime := creationTime;
                                  userExpiryOption := expiryOption |} in
               SECRETS_KV_put secretId encryptedPayload effectiveTtl metadata;;
               ret (Same (c_json (CreatedBody secretId) 200))
         end
     end)
    (fun e =>
       console_error (LogErr "Error creating secret:" e);;
       ret (Detailed 500 "Failed to create secret" e)).

Definition readHandler (id : string) : M Answer :=
  tryCatch
    (match validateSecretId id with
     | Invalid error => ret (Same (c_json (ErrorBody error) 400))
     | Valid =>
         '(value, metadata) ← SECRETS_KV_getWithMetadata id;
         if negb (truthy value) then
           ret (Same (c_json (ErrorBody "Secret not found or expired") 404))
         else
           (if optReadOnce metadata then waitUntil (DeleteTask id) else ret tt);;
           ret (Same (c_json (SecretBody value metadata) 200))
     end)
    (fun e =>
       console_error (LogErr "Error retrieving secret:" e);;
       ret (Detailed 500 "Failed to retrieve secret" e)).

End Legacy.

(** ** Further notions used by the statements *)

(** A byte that [generateId] maps to the character [c], when there is
    one: the position of [c] in the alphabet. *)
Fixpoint indexIn (c : ascii) (s : string) (i : nat) : option nat :=
  match s with
  | EmptyString => None
  | String c' rest => if Ascii.eqb c c' then Some i else indexIn c rest (S i)
  end.

Definition byteFor (c : ascii) : Byte.byte :=
  match indexIn c characters 0 with
  | Some i => match Byte.of_nat i with Some b => b | None => x00 end
  | None => x00
  end.

Fixpoint bytesFor (id : string) : list Byte.byte :=
  match id with
  | EmptyString => []
  | String c rest => byteFor c :: bytesFor rest
  end.

(** The lifetimes of the TTL table. *)
Definition tableLifetimes : list Z := map snd (TTL_MAP CONFIG).

(** What the backend does with a lifetime, as in [SECRETS_KV_put]. *)
Definition lifetimeAccepted (ttl : num) : bool :=
  match ttl with
  | Num z => 60 <=? z
  | NaN => false
  end.

(** The runs of the create handler, case by case: the answer and the world
    it leaves, from the body, the candidates drawn and what the platform
    does.  [createHandler_run] shows that every run is one of them. *)
Inductive CreateRun (env : Env) (w : World) :
  option jsval -> Outcome Response -> World -> Prop :=
| CreateMalformed :
    CreateRun env w None (Ok (c_json (ErrorBody "Invalid JSON") 400)) w
| CreateNoBody body e :
    getField body "encryptedPayload" = Throw e ->
    CreateRun env w (Some body)
      (Ok (c_json (ErrorBody "Failed to create secret") 500))
      (addLine (LogErr "Create Error:" e) w)
| CreateInvalid body p reason :
    getField body "encryptedPayload" = Ok p ->
    validatePayload p = Invalid reason ->
    CreateRun env w (Some body) (Ok (c_json (ErrorBody reason) 400)) w
| CreateLookupFailed body p m :
    getField body "encryptedPayload" = Ok p ->
    validatePayload p = Valid ->
    (m < 3)%nat -> allCollide env w m ->
    kvFails env (List.length (kvLog w) + m) = true ->
    CreateRun env w (Some body)
      (Ok (c_json (ErrorBody "Failed to create secret") 500))
      (addLine (LogErr "Create Error:" KvError) (afterAttempts env w (S m)))
| CreateBusy body p :
    getField body "encryptedPayload" = Ok p ->
    validatePayload p = Valid ->
    allCollide env w 3 ->
    CreateRun env w (Some body)
      (Ok (c_json (ErrorBody "Service busy, please try again") 503))
      (addLine (Log "ID collision exhaust") (afterAttempts env w 3))
| CreateTtlFailed body s eo ro m e :
    getField body "encryptedPayload" = Ok (JStr s) ->
    getField body "expiryOption" = Ok eo ->
    getField body "readOnce" = Ok ro ->
    validatePayload (JStr s) = Valid ->
    (m < 3)%nat -> allCollide env w m ->
    occupied (kv w) (candidate env (draws w + m)) = false ->
    effectiveKvTtl eo ro = Throw e ->
    CreateRun env w (Some body)
      (Ok (c_json (ErrorBody "Failed to create secret") 500))
      (addLine (LogErr "Create Error:" e) (afterAttempts env w (S m)))
| CreatePutFailed body s eo ro m ttl :
    getField body "encryptedPayload" = Ok (JStr s) ->
    getField body "expiryOption" = Ok eo ->
    getField body "readOnce" = Ok ro ->
    validatePayload (JStr s) = Valid ->
    (m < 3)%nat -> allCollide env w m ->
    occupied (kv w) (candidate env (draws w + m)) = false ->
    effectiveKvTtl eo ro = Ok ttl ->
    kvFails env (List.length (kvLog w) + S m) = true \/ lifetimeAccepted ttl = false ->
    CreateRun env w (Some body)
      (Ok (c_json (ErrorBody "Failed to create secret") 500))
      (addLine (LogErr "Create Error:" KvError)
         (addOp (OpPut (candidate env (draws w + m)) s ttl (createMetadata env eo ro))
                (afterAttempts env w (S m))))
| CreateStored body s eo ro m z :
    getField body "encryptedPayload" = Ok (JStr s) ->
    getField body "expiryOption" = Ok eo ->
    getField body "readOnce" = Ok ro ->
    validatePayload (JStr s) = Valid ->
    (m < 3)%nat -> allCollide env w m ->
    occupied (kv w) (candidate env (draws w + m)) = false ->
    effectiveKvTtl eo ro = Ok (Num z) -> 60 <= z ->
    kvFails env (List.length (kvLog w) + S m) = false ->
    CreateRun env w (Some body)
      (Ok (c_json (CreatedBody (JStr (candidate env (draws w + m)))) 200))
      (setStore
         (<[candidate env (draws w + m) :=
              {| value := s; expirationTtl := z;
                 metadata := Some (createMetadata env eo ro) |}]> (kv w))
         (addOp (OpPut (candidate env (draws w + m)) s (Num z) (createMetadata env eo ro))
                (afterAttempts env w (S m)))).

(** Platforms used as examples: one whose second draw gives the id of
    ['B']s after a first id of ['A']s, and one where exactly the [k]-th
    call on the store rejects. *)
Definition secondEnv : Env :=
  {| randomBytes := fun n _ => if (n =? 1)%nat then x00 else x01;
     clock := 1700000000000; kvFails := fun _ => false |}.

Definition failAt (k : nat) : Env :=
  {| randomBytes := fun _ _ => x00; clock := 1700000000000;
     kvFails := Nat.eqb k |}.

(** The entry that the create of [onceBody] stores. *)
Definition onceMetadata : Metadata :=
  {| readOnce := true; creationTime := 1700000000000;
     userExpiryOption := JUndefined |}.

Definition onceEntry : Entry :=
  {| value := "x"; expirationTtl := 86400; metadata := Some onceMetadata |}.

(** The current module's view of an answer of the older copy. *)
Definition statusOf (a : Legacy.Answer) : Z :=
  match a with
  | Legacy.Same r => status r
  | Legacy.Detailed st _ _ => st
  end.

(* ===================================================================== *)
(** * Properties *)
(* ===================================================================== *)

(** ** TTL policy *)

Lemma effectiveKvTtl_readOnce expiryOption readOnce :
  truthy readOnce = true ->
  effectiveKvTtl expiryOption readOnce = Ok (Num (READ_ONCE_TTL CONFIG)).
Proof. intros H. unfold effectiveKvTtl. now rewrite H. Qed.

Lemma tableOrDefault_floor k : 60 <= tableOrDefault k.
Proof.
  unfold tableOrDefault. cbn [CONFIG TTL_MAP DEFAULT_TTL ownProperty].
  repeat match goal with
         | |- context [String.eqb ?a ?b] => destruct (String.eqb a b)
         end; lia.
Qed.

(** On a key that is not inherited from [Object.prototype] the lookup
    follows the table and the result is floored. *)
Lemma effectiveKvTtl_key expiryOption readOnce k :
  truthy readOnce = false ->
  ToPropertyKey expiryOption = Ok k ->
  inObjectPrototype k = false ->
  effectiveKvTtl expiryOption readOnce = Ok (Num (tableOrDefault k)).
Proof.
  intros Hr Hk Hp. unfold effectiveKvTtl. rewrite Hr, Hk.
  unfold getProperty, tableOrDefault. rewrite Hp.
  cbn [CONFIG TTL_MAP DEFAULT_TTL MIN_TTL ownProperty].
  repeat match goal with
         | |- context [String.eqb ?a ?b] => destruct (String.eqb a b)
         end; reflexivity.
Qed.

Lemma effectiveKvTtl_absent readOnce :
  truthy readOnce = false ->
  effectiveKvTtl JUndefined readOnce = Ok (Num (DEFAULT_TTL CONFIG)).
Proof. intros Hr. now rewrite (effectiveKvTtl_key JUndefined readOnce "undefined"). Qed.

(** The three cases of a string option. *)
Lemma effectiveKvTtl_string s readOnce :
  effectiveKvTtl (JStr s) readOnce =
  if truthy readOnce then Ok (Num (READ_ONCE_TTL CONFIG))
  else match ownProperty (TTL_MAP CONFIG) s with
       | Some z => Ok (Num z)
       | None => if inObjectPrototype s then Ok NaN
                 else Ok (Num (DEFAULT_TTL CONFIG))
       end.
Proof.
  unfold effectiveKvTtl. destruct (truthy readOnce); [reflexivity|].
  cbn [ToPropertyKey ToString]. unfold getProperty.
  cbn [CONFIG TTL_MAP DEFAULT_TTL MIN_TTL ownProperty].
  repeat match goal with
         | |- context [String.eqb ?a ?b] => destruct (String.eqb a b)
         end; try reflexivity.
  destruct (inObjectPrototype s); reflexivity.
Qed.

(** C3: the effective TTL is not the one-day default, and not a lifetime
    of at least 60 seconds, on every unrecognized option.  For the option
    ["constructor"], which is none of the five buckets, the table lookup
    finds the property inherited from [Object.prototype]; it is truthy, so
    the default is not taken, and [Math.max] of it and 60 is [NaN].  An
    option that is an object with a ["toString"] entry makes the
    computation throw. *)
Theorem effectiveKvTtl_inherited_key :
  ownProperty (TTL_MAP CONFIG) "constructor" = None /\
  effectiveKvTtl (JStr "constructor") (JBool false) = Ok NaN /\
  effectiveKvTtl (JStr "constructor") (JBool false)
    <> Ok (Num (DEFAULT_TTL CONFIG)) /\
  (forall z, effectiveKvTtl (JStr "constructor") (JBool false) = Ok (Num z) ->
             60 <= z -> False) /\
  effectiveKvTtl (JObj [("toString", JNum 1)]) (JBool false)
    = Throw (TypeError "Cannot convert object to primitive value").
Proof.
  repeat split; try reflexivity; try discriminate.
Qed.

(** ** Payload validation *)

Lemma validatePayload_valid_inv v :
  validatePayload v = Valid ->
  exists s, v = JStr s /\ s <> "" /\
            Z.of_nat (String.length s) <= MAX_PAYLOAD_SIZE CONFIG.
Proof.
  unfold validatePayload.
  destruct v as [| |b|z|s|items|fields]; cbn [truthy negb].
  - discriminate.
  - discriminate.
  - destruct b; discriminate.
  - destruct (z =? 0); discriminate.
  - destruct s as [|c s]; cbn [String.eqb negb]; [discriminate|].
    destruct (Z.of_nat (String.length (String c s)) =? 0); [discriminate|].
    destruct (Z.of_nat (String.length (String c s)) >? MAX_PAYLOAD_SIZE CONFIG) eqn:E;
      [discriminate|].
    intros _. exists (String c s). repeat split; [discriminate|].
    rewrite Z.gtb_ltb, Z.ltb_ge in E. exact E.
  - discriminate.
  - discriminate.
Qed.

Lemma validatePayload_valid s :
  s <> "" -> Z.of_nat (String.length s) <= MAX_PAYLOAD_SIZE CONFIG ->
  validatePayload (JStr s) = Valid.
Proof.
  intros Hne Hle. unfold validatePayload.
  destruct s as [|c s]; [congruence|].
  cbn [truthy String.eqb negb].
  assert ((Z.of_nat (String.length (String c s)) =? 0) = false) as ->
    by (apply Z.eqb_neq; change (String.length (String c s)) with (S (String.length s)); lia).
  assert ((Z.of_nat (String.length (String c s)) >? MAX_PAYLOAD_SIZE CONFIG) = false) as ->
    by (rewrite Z.gtb_ltb; apply Z.ltb_ge; exact Hle).
  reflexivity.
Qed.

Lemma validatePayload_never_empty_reason v :
  validatePayload v <> Invalid "Payload cannot be empty".
Proof.
  unfold validatePayload.
  destruct v as [| |b|z|s|items|fields]; cbn [truthy negb].
  - discriminate.
  - discriminate.
  - destruct b; discriminate.
  - destruct (z =? 0); discriminate.
  - destruct s as [|c s]; cbn [String.eqb negb]; [discriminate|].
    assert ((Z.of_nat (String.length (String c s)) =? 0) = false) as ->
      by (apply Z.eqb_neq;
          change (String.length (String c s)) with (S (String.length s)); lia).
    destruct (Z.of_nat (String.length (String c s)) >? MAX_PAYLOAD_SIZE CONFIG);
      discriminate.
  - discriminate.
  - discriminate.
Qed.

Lemma validatePayload_not_string v :
  truthy v = true -> isString v = false ->
  validatePayload v = Invalid "Invalid payload type".
Proof.
  intros Ht Hs. unfold validatePayload. rewrite Ht.
  destruct v; try reflexivity; discriminate.
Qed.

Lemma validatePayload_too_large s :
  Z.of_nat (String.length s) > MAX_PAYLOAD_SIZE CONFIG ->
  validatePayload (JStr s) = Invalid "Payload too large".
Proof.
  intros Hgt. unfold validatePayload.
  destruct s as [|c s]; [cbn in Hgt; lia|].
  cbn [truthy String.eqb negb].
  assert ((Z.of_nat (String.length (String c s)) =? 0) = false) as ->
    by (apply Z.eqb_neq;
        change (String.length (String c s)) with (S (String.length s)); lia).
  assert ((Z.of_nat (String.length (String c s)) >? MAX_PAYLOAD_SIZE CONFIG) = true) as ->
    by (rewrite Z.gtb_ltb; apply Z.ltb_lt; lia).
  reflexivity.
Qed.

(** C9: the empty payload does not get a reason of its own.  The test
    [!encryptedPayload] already holds of the empty string, so the empty
    payload is rejected with the reason of the absent one, and the reason
    written for the empty case is returned on no input at all. *)
Theorem validatePayload_empty_reason :
  validatePayload (JStr "") = Invalid "Encrypted payload is required" /\
  validatePayload JUndefined = Invalid "Encrypted payload is required" /\
  validatePayload (JNum 7) = Invalid "Invalid payload type" /\
  (forall v, validatePayload v <> Invalid "Payload cannot be empty").
Proof.
  repeat split. apply validatePayload_never_empty_reason.
Qed.

(** ** Identifier generation *)

Lemma charOf_alnum v :
  exists c, charOf v = String c EmptyString /\ isAlnum c = true.
Proof. destruct v; eexists; split; reflexivity. Qed.

Lemma joinWith_empty_cons c parts :
  joinWith "" (String c EmptyString :: parts) = String c (joinWith "" parts).
Proof. destruct parts; reflexivity. Qed.

Lemma idOfBytes_cons v vs :
  exists c, idOfBytes (v :: vs) = String c (idOfBytes vs) /\ isAlnum c = true.
Proof.
  destruct (charOf_alnum v) as [c [Hc Ha]]. exists c. split; [|exact Ha].
  unfold idOfBytes. cbn [map]. rewrite Hc. apply joinWith_empty_cons.
Qed.

(** No byte is rejected: an id has one character per random byte. *)
Lemma idOfBytes_length vs :
  String.length (idOfBytes vs) = List.length vs.
Proof.
  induction vs as [|v vs IH]; [reflexivity|].
  destruct (idOfBytes_cons v vs) as [c [-> _]].
  cbn [String.length List.length]. now rewrite IH.
Qed.

Lemma idOfBytes_allAlnum vs : allAlnum (idOfBytes vs) = true.
Proof.
  induction vs as [|v vs IH]; [reflexivity|].
  destruct (idOfBytes_cons v vs) as [c [-> Ha]].
  cbn [allAlnum]. now rewrite Ha, IH.
Qed.

(** An id of at most 32 characters made by [generateId] from at least one
    byte passes [validateSecretId]. *)
Lemma idOfBytes_valid vs :
  (0 < List.length vs)%nat ->
  Z.of_nat (List.length vs) <= MAX_ID_LENGTH CONFIG ->
  validateSecretId (idOfBytes vs) = Valid.
Proof.
  intros Hpos Hle. unfold validateSecretId.
  pose proof (idOfBytes_length vs) as Hlen.
  pose proof (idOfBytes_allAlnum vs) as Hal.
  destruct (idOfBytes vs) as [|c s] eqn:E.
  - cbn in Hlen. lia.
  - cbn [truthy isString String.eqb negb orb].
    assert ((Z.of_nat (String.length (String c s)) >? MAX_ID_LENGTH CONFIG) = false) as ->
      by (rewrite Z.gtb_ltb; apply Z.ltb_ge; rewrite Hlen; exact Hle).
    unfold alnumPlus. now rewrite Hal.
Qed.

Lemma candidate_valid env n : validateSecretId (candidate env n) = Valid.
Proof.
  unfold candidate. apply idOfBytes_valid;
    rewrite length_map, length_seq; cbn; lia.
Qed.

Lemma candidate_length env n : String.length (candidate env n) = 16%nat.
Proof.
  unfold candidate. now rewrite idOfBytes_length, length_map, length_seq.
Qed.

Lemma allBytes_complete v : In v allBytes.
Proof.
  assert (H : existsb (Byte.eqb v) allBytes = true) by (destruct v; reflexivity).
  apply existsb_exists in H. destruct H as [x [Hin Heq]].
  apply Byte.byte_dec_bl in Heq. now subst.
Qed.

Lemma allBytes_length : List.length allBytes = 256%nat.
Proof. reflexivity. Qed.

(** Every byte is mapped to a character of the alphabet: none is drawn
    again. *)
Lemma charOf_in_alphabet v :
  exists i, (i < 62)%nat /\ charOf v = alphabetAt i.
Proof.
  exists (N.to_nat (Byte.to_N v) mod 62)%nat. split.
  - apply Nat.mod_upper_bound. discriminate.
  - reflexivity.
Qed.

(** C5, as stated, fails: 256 is not a multiple of 62, every byte is used,
    and ['A'] has five preimages where ['I'] has four. *)
Lemma generateId_biased :
  (256 mod 62 <> 0)%nat /\
  preimageCount "A" = 5%nat /\ preimageCount "I" = 4%nat /\
  ~ unbiased.
Proof.
  split; [discriminate|]. split; [reflexivity|]. split; [reflexivity|].
  intros H. specialize (H 0%nat 8%nat ltac:(lia) ltac:(lia)).
  vm_compute in H. discriminate.
Qed.

(** C5, amended: the character at index [i] of the alphabet has five
    preimages among the 256 byte values when [i < 8] (['A'] to ['H']) and
    four otherwise; the length of an id is the number of bytes drawn. *)
Theorem generateId_preimages i :
  (i < 62)%nat ->
  preimageCount (alphabetAt i) = (if (i <? 8)%nat then 5 else 4)%nat /\
  (forall vs, String.length (idOfBytes vs) = List.length vs).
Proof.
  intros Hi. split; [|apply idOfBytes_length].
  do 62 (destruct i as [|i]; [vm_compute; reflexivity|]).
  lia.
Qed.

Lemma generateId_preimages_witness :
  preimageCount (alphabetAt 61) = 4%nat /\
  (forall vs, String.length (idOfBytes vs) = List.length vs).
Proof. apply (generateId_preimages 61). lia. Defined.

(** ** Running the handlers *)

Ltac mrun :=
  cbv beta delta [mbind M_bind bind mret M_ret ret tryCatch liftOutcome throw
                  c_req_json console_error waitUntil Date_now] iota.

Lemma getField_ok body name v :
  getField body name = Ok v -> forall name', exists v', getField body name' = Ok v'.
Proof.
  destruct body; cbn; intros H name'; try discriminate; eauto.
Qed.

Lemma generateId_run env w :
  generateId (ID_LENGTH CONFIG) env w = (Ok (candidate env (draws w)), addDraw w).
Proof. reflexivity. Qed.

Lemma SECRETS_KV_get_run key env w :
  SECRETS_KV_get key env w =
  if kvFails env (List.length (kvLog w))
  then (Throw KvError, addOp (OpGet key) w)
  else (Ok (lookupValue (kv w) key), addOp (OpGet key) w).
Proof.
  unfold SECRETS_KV_get, kvCall, readStore, lookupValue. mrun.
  destruct (kvFails env (List.length (kvLog w))); reflexivity.
Qed.

Lemma afterAttempts_0 env w : afterAttempts env w 0 = w.
Proof.
  destruct w. unfold afterAttempts, getsOf. cbn. f_equal; [apply app_nil_r | lia].
Qed.

Lemma afterAttempts_S env w n :
  afterAttempts env (addOp (OpGet (candidate env (draws w))) (addDraw w)) n
  = afterAttempts env w (S n).
Proof.
  unfold afterAttempts, getsOf, addOp, addDraw.
  cbn [kv kvLog draws console pending].
  f_equal.
  - rewrite <- app_assoc. f_equal. cbn [seq map app]. rewrite Nat.add_0_r. f_equal.
    rewrite <- seq_shift, map_map. apply map_ext. intros i. do 2 f_equal. lia.
  - lia.
Qed.

Lemma allocLoop_step fuel attempts sid env w :
  attempts < 3 ->
  allocLoop (S fuel) attempts sid env w =
  let id := candidate env (draws w) in
  let w1 := addOp (OpGet id) (addDraw w) in
  if kvFails env (List.length (kvLog w)) then (Throw KvError, w1)
  else if occupied (kv w) id then allocLoop fuel (attempts + 1) (JStr id) env w1
       else (Ok (attempts, JStr id), w1).
Proof.
  intros Hlt. cbn [allocLoop]. apply Z.ltb_lt in Hlt. rewrite Hlt.
  cbv beta delta [mbind M_bind bind] iota.
  rewrite generateId_run, SECRETS_KV_get_run.
  cbn [kvLog addDraw kv].
  destruct (kvFails env (List.length (kvLog w))); [reflexivity|].
  unfold occupied. cbn zeta.
  destruct (truthy (lookupValue (kv w) (candidate env (draws w)))); reflexivity.
Qed.

(** Three unfoldings are enough from [attempts = 0]: more fuel changes
    nothing. *)
Lemma allocLoop_fuel fuel : forall attempts sid env w k,
  3 <= attempts + Z.of_nat fuel ->
  allocLoop (fuel + k) attempts sid env w = allocLoop fuel attempts sid env w.
Proof.
  induction fuel as [|fuel IH]; intros attempts sid env w k Hge.
  - cbn [Nat.add]. destruct k as [|k]; [reflexivity|].
    cbn [allocLoop]. assert ((attempts <? 3) = false) as -> by (apply Z.ltb_ge; lia).
    reflexivity.
  - cbn [Nat.add]. destruct (Z.ltb_spec attempts 3) as [Hlt|Hnlt].
    + rewrite !(allocLoop_step _ _ _ _ _ Hlt). cbn zeta.
      destruct (kvFails env (List.length (kvLog w))); [reflexivity|].
      destruct (occupied (kv w) (candidate env (draws w))); [|reflexivity].
      apply IH. lia.
    + cbn [allocLoop]. assert ((attempts <? 3) = false) as -> by (apply Z.ltb_ge; lia).
      reflexivity.
Qed.

Lemma allCollide_shift env w m :
  occupied (kv w) (candidate env (draws w)) = true ->
  allCollide env (addOp (OpGet (candidate env (draws w))) (addDraw w)) m ->
  allCollide env w (S m).
Proof.
  intros H0 H i Hi. destruct i as [|i].
  - now rewrite Nat.add_0_r.
  - specialize (H i ltac:(lia)). cbn [addOp addDraw kv draws] in H.
    now replace (draws w + S i)%nat with (S (draws w) + i)%nat by lia.
Qed.

Lemma allocLoop_spec fuel : forall attempts sid env w r w',
  allocLoop fuel attempts sid env w = (r, w') ->
  exists n, (n <= fuel)%nat /\ w' = afterAttempts env w n /\
            allocPost env w attempts sid fuel n r.
Proof.
  induction fuel as [|fuel IH]; intros attempts sid env w r w' Hrun.
  - cbn in Hrun. inversion Hrun; subst. exists 0%nat.
    split; [lia|]. split; [now rewrite afterAttempts_0|].
    right. repeat split; try lia; auto. intros i Hi; lia.
  - destruct (Z.ltb_spec attempts 3) as [Hlt|Hge].
    + rewrite (allocLoop_step _ _ _ _ _ Hlt) in Hrun. cbn zeta in Hrun.
      destruct (kvFails env (List.length (kvLog w))) eqn:Hf.
      * inversion Hrun; subst. exists 1%nat. split; [lia|].
        split; [now rewrite <- afterAttempts_S, afterAttempts_0|].
        exists 0%nat. repeat split; [intros i Hi; lia|].
        now rewrite Nat.add_0_r.
      * destruct (occupied (kv w) (candidate env (draws w))) eqn:Hocc.
        -- apply IH in Hrun. destruct Hrun as [n [Hn [Hw Hpost]]].
           exists (S n). split; [lia|]. split; [now rewrite <- afterAttempts_S|].
           unfold allocPost in *. destruct r as [[a s]|e].
           ++ destruct Hpost as [[m [-> [Hc [Ha [Ha3 [Hs Ho]]]]]]|[Hc [Ha [Hex Hs]]]].
              ** left. exists (S m). cbn [addOp addDraw kv draws] in Hs, Ho.
                 replace (draws w + S m)%nat with (S (draws w) + m)%nat by lia.
                 repeat split; auto; [now apply allCollide_shift | lia].
              ** right. repeat split; [now apply allCollide_shift | lia | lia | lia].
           ++ destruct Hpost as [m [-> [-> [Hc Hk]]]].
              exists (S m). repeat split; [now apply allCollide_shift|].
              cbn [addOp addDraw kvLog] in Hk. rewrite length_app in Hk. cbn in Hk.
              now replace (List.length (kvLog w) + S m)%nat
                with (List.length (kvLog w) + 1 + m)%nat by lia.
        -- inversion Hrun; subst. exists 1%nat. split; [lia|].
           split; [now rewrite <- afterAttempts_S, afterAttempts_0|].
           left. exists 0%nat. rewrite Nat.add_0_r.
           repeat split; auto; [intros i Hi; lia | lia].
    + cbn [allocLoop] in Hrun. apply Z.ltb_ge in Hge. rewrite Hge in Hrun.
      inversion Hrun; subst. exists 0%nat. split; [lia|].
      split; [now rewrite afterAttempts_0|].
      right. apply Z.ltb_ge in Hge. repeat split; try lia; auto. intros i Hi; lia.
Qed.

Lemma SECRETS_KV_put_run k s ttl md env w :
  SECRETS_KV_put (JStr k) (JStr s) ttl md env w =
  let w1 := addOp (OpPut k s ttl md) w in
  if kvFails env (List.length (kvLog w)) then (Throw KvError, w1)
  else match ttl with
       | Num z =>
           if 60 <=? z
           then (Ok tt, setStore (<[k := {| value := s; expirationTtl := z;
                                            metadata := Some md |}]> (kv w)) w1)
           else (Throw KvError, w1)
       | NaN => (Throw KvError, w1)
       end.
Proof.
  unfold SECRETS_KV_put, kvCall, writeStore. mrun.
  destruct (kvFails env (List.length (kvLog w))); [reflexivity|].
  destruct ttl as [z|]; [|reflexivity].
  destruct (60 <=? z); reflexivity.
Qed.

Lemma createHandler_valid env w body p eo ro :
  getField body "encryptedPayload" = Ok p ->
  getField body "expiryOption" = Ok eo ->
  getField body "readOnce" = Ok ro ->
  validatePayload p = Valid ->
  createHandler (Some body) env w =
  match allocLoop 3 0 JUndefined env w with
  | (Throw e, w1) =>
      (Ok (c_json (ErrorBody "Failed to create secret") 500),
       addLine (LogErr "Create Error:" e) w1)
  | (Ok (attempts, secretId), w1) =>
      if 3 <=? attempts
      then (Ok (c_json (ErrorBody "Service busy, please try again") 503),
            addLine (Log "ID collision exhaust") w1)
      else match effectiveKvTtl eo ro with
           | Throw e =>
               (Ok (c_json (ErrorBody "Failed to create secret") 500),
                addLine (LogErr "Create Error:" e) w1)
           | Ok ttl =>
               match SECRETS_KV_put secretId p ttl (createMetadata env eo ro) env w1 with
               | (Ok _, w2) => (Ok (c_json (CreatedBody secretId) 200), w2)
               | (Throw e, w2) =>
                   (Ok (c_json (ErrorBody "Failed to create secret") 500),
                    addLine (LogErr "Create Error:" e) w2)
               end
           end
  end.
Proof.
  intros Hp Heo Hro Hv. unfold createHandler. mrun.
  rewrite Hp, Heo, Hro, Hv.
  destruct (allocLoop 3 0 JUndefined env w) as [[[a sid]|e] w1]; [|reflexivity].
  destruct (3 <=? a); [reflexivity|].
  destruct (effectiveKvTtl eo ro) as [ttl|e]; [|reflexivity].
  unfold createMetadata.
  destruct (SECRETS_KV_put _ _ _ _ env w1) as [[[]|e] w2]; reflexivity.
Qed.

Lemma allocLoop_three env w r w1 :
  allocLoop 3 0 JUndefined env w = (r, w1) ->
  exists n, (1 <= n <= 3)%nat /\ w1 = afterAttempts env w n /\
    match r with
    | Throw e =>
        e = KvError /\
        exists m, n = S m /\ allCollide env w m /\
                  kvFails env (List.length (kvLog w) + m) = true
    | Ok (a, s) =>
        (a < 3 /\
         exists m, n = S m /\ a = Z.of_nat m /\ allCollide env w m /\
                   s = JStr (candidate env (draws w + m)) /\
                   occupied (kv w) (candidate env (draws w + m)) = false)
        \/ (a = 3 /\ n = 3%nat /\ allCollide env w 3)
    end.
Proof.
  intros Hrun. apply allocLoop_spec in Hrun.
  destruct Hrun as [n [Hn [Hw Hpost]]]. exists n.
  unfold allocPost in Hpost. destruct r as [[a s]|e].
  - destruct Hpost as [[m [-> [Hc [Ha [Ha3 [Hs Ho]]]]]]|[Hc [Ha [Hex Hs]]]].
    + split; [lia|]. split; [exact Hw|]. left. split; [exact Ha3|].
      exists m. repeat split; auto; lia.
    + assert (n = 3%nat) as -> by lia.
      split; [lia|]. split; [exact Hw|]. right. repeat split; auto; lia.
  - destruct Hpost as [m [-> [-> [Hc Hk]]]].
    split; [lia|]. split; [exact Hw|]. split; [reflexivity|]. eauto.
Qed.

Lemma truthy_JStr s : s <> "" -> truthy (JStr s) = true.
Proof. destruct s; [congruence | reflexivity]. Qed.

(** On a well-formed store a lookup that is not truthy means a free key. *)
Lemma occupied_false_free store id :
  storeWellFormed store -> occupied store id = false -> store !! id = None.
Proof.
  intros Hwf Hocc. unfold occupied, lookupValue in Hocc.
  destruct (store !! id) as [e|] eqn:E; [|reflexivity].
  specialize (Hwf id e E). rewrite (truthy_JStr _ Hwf) in Hocc. discriminate.
Qed.

(** ** Identifier allocation on the create path *)

(** C4: on a create with a valid payload the allocation draws between one
    and three candidate ids and looks each of them up in the store, in
    order, before anything is written; the only write is a put under the
    last candidate.  An id that is returned is the last candidate, its
    lookup was not truthy (on a well-formed store: the key was free).  When
    the three candidates are all taken and the lookups succeed the answer
    is 503 "Service busy", with the store unchanged and the exhaustion
    logged; a 503 is given in no other case, and the generic failure is
    a 500. *)
Theorem create_allocation env w body p r w' :
  getField body "encryptedPayload" = Ok p ->
  validatePayload p = Valid ->
  createHandler (Some body) env w = (r, w') ->
  exists n,
    (1 <= n <= 3)%nat /\
    draws w' = (draws w + n)%nat /\
    (exists rest,
        kvLog w' = kvLog w ++ getsOf env w n ++ rest /\
        forall op, In op rest ->
          exists v ttl md, op = OpPut (candidate env (draws w + (n - 1))) v ttl md) /\
    (forall sid st, r = Ok (c_json (CreatedBody sid) st) ->
        sid = JStr (candidate env (draws w + (n - 1))) /\
        occupied (kv w) (candidate env (draws w + (n - 1))) = false /\
        (storeWellFormed (kv w) ->
         kv w !! candidate env (draws w + (n - 1)) = None)) /\
    (allCollide env w 3 ->
     (forall i, (i < 3)%nat -> kvFails env (List.length (kvLog w) + i) = false) ->
     r = Ok (c_json (ErrorBody "Service busy, please try again") 503) /\
     kv w' = kv w /\ console w' = console w ++ [Log "ID collision exhaust"]) /\
    (forall resp, r = Ok resp -> status resp = 503 ->
        n = 3%nat /\ allCollide env w 3 /\ kv w' = kv w).
Proof.
  intros Hp Hv Hrun.
  destruct (getField_ok _ _ _ Hp "expiryOption") as [eo Heo].
  destruct (getField_ok _ _ _ Hp "readOnce") as [ro Hro].
  rewrite (createHandler_valid _ _ _ _ _ _ Hp Heo Hro Hv) in Hrun.
  destruct (allocLoop 3 0 JUndefined env w) as [ra w1] eqn:Halloc.
  apply allocLoop_three in Halloc. destruct Halloc as [n [Hn [Hw1 Hra]]].
  exists n. split; [exact Hn|].
  destruct ra as [[a s]|e].
  - destruct Hra as [[Ha3 [m [-> [Ha [Hc [-> Hfree]]]]]]|[-> [-> Hc]]].
    + assert ((3 <=? a) = false) as Hle by (apply Z.leb_gt; exact Ha3).
      rewrite Hle in Hrun.
      replace (S m - 1)%nat with m by lia.
      assert (Hno : allCollide env w 3 -> False).
      { intros Hall. specialize (Hall m ltac:(lia)). congruence. }
      destruct (effectiveKvTtl eo ro) as [ttl|e].
      * destruct (validatePayload_valid_inv _ Hv) as [s [-> _]].
        rewrite SECRETS_KV_put_run in Hrun. cbn zeta in Hrun.
        assert (Hlog : forall w2, kvLog w2 = kvLog (addOp (OpPut (candidate env (draws w + m)) s ttl (createMetadata env eo ro)) w1) ->
                  exists rest,
                    kvLog w2 = kvLog w ++ getsOf env w (S m) ++ rest /\
                    forall op, In op rest ->
                      exists v ttl md, op = OpPut (candidate env (draws w + m)) v ttl md).
        { intros w2 ->. eexists. subst w1. cbn [addOp afterAttempts kvLog].
          rewrite <- app_assoc. split; [reflexivity|].
          intros op [<-|[]]. eauto. }
        destruct (kvFails env (List.length (kvLog w1)));
          [|destruct ttl as [z|]; [destruct (60 <=? z)|]];
          inversion Hrun; subst r w'; clear Hrun;
          (split; [subst w1; reflexivity|]);
          (split; [apply Hlog; reflexivity|]);
          (split; [intros sid st Hsid; inversion Hsid; subst;
                   repeat split; eauto using occupied_false_free|]);
          (split; [intros Hall; destruct (Hno Hall)|]);
          intros resp Hresp Hst; inversion Hresp; subst resp; discriminate Hst.
      * inversion Hrun; subst r w'; clear Hrun.
        split; [subst w1; reflexivity|].
        split; [exists []; subst w1; cbn [addLine afterAttempts kvLog];
                rewrite app_nil_r; split; [reflexivity | intros op []]|].
        split; [intros sid st Hsid; inversion Hsid|].
        split; [intros Hall; destruct (Hno Hall)|].
        intros resp Hresp Hst; inversion Hresp; subst resp; discriminate Hst.
    + cbn [Z.leb Z.compare Pos.compare Pos.compare_cont] in Hrun.
      inversion Hrun; subst r w'; clear Hrun.
      split; [subst w1; reflexivity|].
      split; [exists []; subst w1; cbn [addLine afterAttempts kvLog];
              rewrite app_nil_r; split; [reflexivity | intros op []]|].
      split; [intros sid st Hsid; inversion Hsid|].
      split; [intros _ _; subst w1; auto|].
      intros resp _ _. subst w1; auto.
  - destruct Hra as [-> [m [-> [Hc Hk]]]].
    inversion Hrun; subst r w'; clear Hrun.
    split; [subst w1; reflexivity|].
    split; [exists []; subst w1; cbn [addLine afterAttempts kvLog];
            rewrite app_nil_r; split; [reflexivity | intros op []]|].
    split; [intros sid st Hsid; inversion Hsid|].
    split; [intros _ Hnf; rewrite Hnf in Hk by lia; discriminate|].
    intros resp Hresp Hst; inversion Hresp; subst resp; discriminate Hst.
Qed.

Lemma create_allocation_witness :
  fst (createHandler (Some sampleBody) quietEnv afterFirstCreate)
  = Ok (c_json (ErrorBody "Service busy, please try again") 503).
Proof.
  destruct (create_allocation quietEnv afterFirstCreate sampleBody (JStr "abc123")
              (fst (createHandler (Some sampleBody) quietEnv afterFirstCreate))
              (snd (createHandler (Some sampleBody) quietEnv afterFirstCreate))
              eq_refl eq_refl (surjective_pairing _))
    as [n [_ [_ [_ [_ [Hbusy _]]]]]].
  apply Hbusy.
  - intros i Hi. do 3 (destruct i as [|i]; [vm_compute; reflexivity|]). lia.
  - intros i Hi. reflexivity.
Defined.

Lemma SECRETS_KV_getWithMetadata_run key env w :
  SECRETS_KV_getWithMetadata key env w =
  if kvFails env (List.length (kvLog w))
  then (Throw KvError, addOp (OpGetWithMetadata key) w)
  else (Ok (match kv w !! key with
            | Some e => (JStr (value e), metadata e)
            | None => (JNull, None)
            end), addOp (OpGetWithMetadata key) w).
Proof.
  unfold SECRETS_KV_getWithMetadata, kvCall, readStore. mrun.
  destruct (kvFails env (List.length (kvLog w))); reflexivity.
Qed.

Lemma readHandler_hit env w id e :
  validateSecretId id = Valid ->
  kv w !! id = Some e -> value e <> "" ->
  kvFails env (List.length (kvLog w)) = false ->
  readHandler id env w =
  (Ok (c_json (SecretBody (JStr (value e)) (metadata e)) 200),
   if optReadOnce (metadata e)
   then addTask (DeleteTask id) (addOp (OpGetWithMetadata id) w)
   else addOp (OpGetWithMetadata id) w).
Proof.
  intros Hv Hl Hne Hf. unfold readHandler. rewrite Hv.
  cbv beta delta [mbind M_bind bind tryCatch] iota.
  rewrite SECRETS_KV_getWithMetadata_run, Hf, Hl.
  rewrite (truthy_JStr _ Hne). cbn [negb].
  destruct (optReadOnce (metadata e)); reflexivity.
Qed.

Lemma readHandler_miss env w id :
  validateSecretId id = Valid ->
  kv w !! id = None ->
  kvFails env (List.length (kvLog w)) = false ->
  readHandler id env w =
  (Ok (c_json (ErrorBody "Secret not found or expired") 404),
   addOp (OpGetWithMetadata id) w).
Proof.
  intros Hv Hl Hf. unfold readHandler. rewrite Hv.
  cbv beta delta [mbind M_bind bind tryCatch] iota.
  now rewrite SECRETS_KV_getWithMetadata_run, Hf, Hl.
Qed.

Lemma settle_delete env w id :
  pending w = [DeleteTask id] ->
  settle env w =
  if kvFails env (List.length (kvLog w))
  then (Ok tt, addLine (LogErr "Delete Error:" KvError)
                       (addOp (OpDelete id) (clearPending w)))
  else (Ok tt, setStore (delete id (kv w)) (addOp (OpDelete id) (clearPending w))).
Proof.
  intros Hp. unfold settle, takePending.
  cbv beta delta [mbind M_bind bind] iota. rewrite Hp.
  cbn [runTasks runTask]. unfold SECRETS_KV_delete, kvCall, writeStore. mrun.
  cbn [clearPending kvLog].
  destruct (kvFails env (List.length (kvLog w))); reflexivity.
Qed.

(** ** Read-once secrets *)

(** C1: a read of a read-once secret whose lookup succeeds answers 200 with
    the payload and its metadata, and leaves exactly one background task,
    the delete of that id.  The task runs after the answer is fixed: when
    the delete rejects, the rejection is logged on the console and the
    store is as it was; when the delete goes through, the key is gone and
    every later read of the id whose lookup succeeds answers 404. *)
Theorem readOnce_read_then_cleanup env w id e md :
  pending w = [] ->
  validateSecretId id = Valid ->
  kv w !! id = Some e -> value e <> "" ->
  metadata e = Some md -> readOnce md = true ->
  kvFails env (List.length (kvLog w)) = false ->
  let w1 := addTask (DeleteTask id) (addOp (OpGetWithMetadata id) w) in
  readHandler id env w =
    (Ok (c_json (SecretBody (JStr (value e)) (Some md)) 200), w1) /\
  pending w1 = [DeleteTask id] /\
  (forall env',
      kvFails env' (List.length (kvLog w1)) = true ->
      settle env' w1 =
      (Ok tt, addLine (LogErr "Delete Error:" KvError)
                      (addOp (OpDelete id) (clearPending w1)))) /\
  (forall env',
      kvFails env' (List.length (kvLog w1)) = false ->
      let w2 := setStore (delete id (kv w)) (addOp (OpDelete id) (clearPending w1)) in
      settle env' w1 = (Ok tt, w2) /\
      forall env'',
        kvFails env'' (List.length (kvLog w2)) = false ->
        readHandler id env'' w2 =
        (Ok (c_json (ErrorBody "Secret not found or expired") 404),
         addOp (OpGetWithMetadata id) w2)).
Proof.
  intros Hp Hv Hl Hne Hmd Hro Hf w1.
  assert (Hp1 : pending w1 = [DeleteTask id])
    by (subst w1; cbn [addTask addOp pending]; now rewrite Hp).
  split.
  - rewrite (readHandler_hit _ _ _ _ Hv Hl Hne Hf), Hmd.
    cbn [optReadOnce]. now rewrite Hro.
  - split; [exact Hp1|]. split.
    + intros env' Hfail. now rewrite (settle_delete _ _ _ Hp1), Hfail.
    + intros env' Hok w2. split.
      * now rewrite (settle_delete _ _ _ Hp1), Hok.
      * intros env'' Hok2. apply readHandler_miss; auto.
        subst w2. cbn [setStore kv]. apply lookup_delete_eq.
Qed.

Lemma readOnce_read_then_cleanup_witness :
  fst (readHandler firstId quietEnv afterOnceCreate)
  = Ok (c_json (SecretBody (JStr "x")
                  (Some {| readOnce := true; creationTime := 1700000000000;
                           userExpiryOption := JUndefined |})) 200) /\
  fst (readHandler firstId quietEnv
         (snd (settle quietEnv (snd (readHandler firstId quietEnv afterOnceCreate)))))
  = Ok (c_json (ErrorBody "Secret not found or expired") 404).
Proof.
  destruct (readOnce_read_then_cleanup quietEnv afterOnceCreate firstId
              {| value := "x"; expirationTtl := 86400;
                 metadata := Some {| readOnce := true;
                                     creationTime := 1700000000000;
                                     userExpiryOption := JUndefined |} |}
              {| readOnce := true; creationTime := 1700000000000;
                 userExpiryOption := JUndefined |}
              ltac:(vm_compute; reflexivity) ltac:(vm_compute; reflexivity)
              ltac:(vm_compute; reflexivity) ltac:(discriminate)
              eq_refl eq_refl eq_refl)
    as [Hread [_ [_ Hgone]]].
  cbv zeta in Hread, Hgone. rewrite Hread. split; [reflexivity|].
  destruct (Hgone quietEnv eq_refl) as [Hsettle Hmiss].
  cbn [snd]. rewrite Hsettle. cbn [snd].
  rewrite (Hmiss quietEnv eq_refl). reflexivity.
Defined.

(** ** Create, then read *)

(** What a successful create has done. *)
Lemma create_success_inv env w body p eo ro sid st w' :
  getField body "encryptedPayload" = Ok p ->
  getField body "expiryOption" = Ok eo ->
  getField body "readOnce" = Ok ro ->
  validatePayload p = Valid ->
  createHandler (Some body) env w = (Ok (c_json (CreatedBody sid) st), w') ->
  exists n s z,
    (n < 3)%nat /\ sid = JStr (candidate env (draws w + n)) /\ p = JStr s /\ st = 200 /\
    occupied (kv w) (candidate env (draws w + n)) = false /\
    effectiveKvTtl eo ro = Ok (Num z) /\ 60 <= z /\
    w' = setStore (<[candidate env (draws w + n) :=
                       {| value := s; expirationTtl := z;
                          metadata := Some (createMetadata env eo ro) |}]> (kv w))
                  (addOp (OpPut (candidate env (draws w + n)) s (Num z)
                                (createMetadata env eo ro))
                         (afterAttempts env w (S n))).
Proof.
  intros Hp Heo Hro Hv Hrun.
  rewrite (createHandler_valid _ _ _ _ _ _ Hp Heo Hro Hv) in Hrun.
  destruct (allocLoop 3 0 JUndefined env w) as [ra w1] eqn:Halloc.
  apply allocLoop_three in Halloc. destruct Halloc as [n [Hn [Hw1 Hra]]].
  destruct ra as [[a s]|e]; [|discriminate].
  destruct Hra as [[Ha3 [m [-> [Ha [Hc [-> Hfree]]]]]]|[-> [-> Hc]]];
    [|discriminate].
  assert ((3 <=? a) = false) as Hle by (apply Z.leb_gt; exact Ha3).
  rewrite Hle in Hrun.
  destruct (effectiveKvTtl eo ro) as [ttl|e]; [|discriminate].
  destruct (validatePayload_valid_inv _ Hv) as [s [-> _]].
  rewrite SECRETS_KV_put_run in Hrun. cbn zeta in Hrun.
  destruct (kvFails env (List.length (kvLog w1))); [discriminate|].
  destruct ttl as [z|]; [|discriminate].
  destruct (60 <=? z) eqn:Hz; [|discriminate].
  inversion Hrun; subst. exists m, s, z.
  repeat split; auto; [lia | now apply Z.leb_le].
Qed.

(** C2: when a create with a non-empty payload within the size bound and
    [readOnce] false returns an id, the id has 16 alphanumeric characters,
    a read of it whose lookup succeeds answers 200 with the same payload
    and with the metadata of the create ([readOnce] false, the expiry
    option as supplied, the creation time), and a second read answers the
    same. *)
Theorem create_then_read env w body s eo sid w1 :
  s <> "" ->
  Z.of_nat (String.length s) <= MAX_PAYLOAD_SIZE CONFIG ->
  getField body "encryptedPayload" = Ok (JStr s) ->
  getField body "expiryOption" = Ok eo ->
  getField body "readOnce" = Ok (JBool false) ->
  createHandler (Some body) env w = (Ok (c_json (CreatedBody sid) 200), w1) ->
  exists id,
    sid = JStr id /\ String.length id = 16%nat /\ alnumPlus id = true /\
    let answer :=
      c_json (SecretBody (JStr s)
                (Some {| readOnce := false; creationTime := clock env;
                         userExpiryOption := eo |})) 200 in
    forall env2,
      kvFails env2 (List.length (kvLog w1)) = false ->
      let w2 := addOp (OpGetWithMetadata id) w1 in
      readHandler id env2 w1 = (Ok answer, w2) /\
      forall env3,
        kvFails env3 (List.length (kvLog w2)) = false ->
        readHandler id env3 w2 = (Ok answer, addOp (OpGetWithMetadata id) w2).
Proof.
  intros Hne Hle Hp Heo Hro Hrun.
  pose proof (validatePayload_valid s Hne Hle) as Hv.
  destruct (create_success_inv _ _ _ _ _ _ _ _ _ Hp Heo Hro Hv Hrun)
    as [n [s' [z [Hn [-> [Hs [_ [Hfree [Httl [Hz ->]]]]]]]]]].
  inversion Hs; subst s'; clear Hs.
  set (id := candidate env (draws w + n)).
  exists id. split; [reflexivity|].
  split; [apply candidate_length|].
  pose proof (candidate_valid env (draws w + n)) as Hvalid. fold id in Hvalid.
  split.
  { unfold validateSecretId in Hvalid.
    destruct (negb (truthy (JStr id)) || negb (isString (JStr id))); [discriminate|].
    destruct (Z.of_nat (String.length id) >? MAX_ID_LENGTH CONFIG); [discriminate|].
    destruct (alnumPlus id); [reflexivity | discriminate]. }
  intros answer env2 Hf2 w2.
  set (e := {| value := s; expirationTtl := z;
               metadata := Some (createMetadata env eo (JBool false)) |}).
  split.
  - rewrite (readHandler_hit env2 _ id e Hvalid); auto.
    cbn [setStore kv]. apply lookup_insert_eq.
  - intros env3 Hf3.
    rewrite (readHandler_hit env3 _ id e Hvalid); auto.
    subst w2. cbn [addOp setStore kv]. apply lookup_insert_eq.
Qed.

Lemma create_then_read_witness :
  exists id,
    JStr firstId = JStr id /\ String.length id = 16%nat /\ alnumPlus id = true /\
    let answer :=
      c_json (SecretBody (JStr "abc123")
                (Some {| readOnce := false; creationTime := clock quietEnv;
                         userExpiryOption := JStr "5min" |})) 200 in
    forall env2,
      kvFails env2 (List.length (kvLog afterFirstCreate)) = false ->
      let w2 := addOp (OpGetWithMetadata id) afterFirstCreate in
      readHandler id env2 afterFirstCreate = (Ok answer, w2) /\
      forall env3,
        kvFails env3 (List.length (kvLog w2)) = false ->
        readHandler id env3 w2 = (Ok answer, addOp (OpGetWithMetadata id) w2).
Proof.
  apply (create_then_read quietEnv emptyWorld sampleBody "abc123" (JStr "5min")
           (JStr firstId) afterFirstCreate).
  - discriminate.
  - vm_compute. discriminate.
  - reflexivity.
  - reflexivity.
  - reflexivity.
  - vm_compute. reflexivity.
Defined.

(** ** Validation comes before the store *)

Lemma createHandler_invalid env w body p reason :
  getField body "encryptedPayload" = Ok p ->
  validatePayload p = Invalid reason ->
  createHandler (Some body) env w = (Ok (c_json (ErrorBody reason) 400), w).
Proof.
  intros Hp Hv.
  destruct (getField_ok _ _ _ Hp "expiryOption") as [eo Heo].
  destruct (getField_ok _ _ _ Hp "readOnce") as [ro Hro].
  unfold createHandler. mrun. now rewrite Hp, Heo, Hro, Hv.
Qed.

Lemma readHandler_invalid env w id reason :
  validateSecretId id = Invalid reason ->
  readHandler id env w = (Ok (c_json (ErrorBody reason) 400), w).
Proof. intros Hv. unfold readHandler. mrun. now rewrite Hv. Qed.

(** C8: a create whose payload fails validation and a read whose id fails
    validation are answered 400 with the reason of the validator, and the
    world is left as it was: no id drawn, no call on the store, no write. *)
Theorem validation_short_circuits env w :
  (forall body p reason,
      getField body "encryptedPayload" = Ok p ->
      validatePayload p = Invalid reason ->
      createHandler (Some body) env w = (Ok (c_json (ErrorBody reason) 400), w)) /\
  (forall id reason,
      validateSecretId id = Invalid reason ->
      readHandler id env w = (Ok (c_json (ErrorBody reason) 400), w)).
Proof.
  split.
  - intros body p reason. apply createHandler_invalid.
  - intros id reason. apply readHandler_invalid.
Qed.

Lemma validation_short_circuits_witness :
  createHandler (Some (JObj [("encryptedPayload", JStr "")])) quietEnv afterFirstCreate
  = (Ok (c_json (ErrorBody "Encrypted payload is required") 400), afterFirstCreate) /\
  readHandler "not-an-id" quietEnv afterFirstCreate
  = (Ok (c_json (ErrorBody "Invalid ID format") 400), afterFirstCreate).
Proof.
  split.
  - apply (proj1 (validation_short_circuits quietEnv afterFirstCreate)
                 (JObj [("encryptedPayload", JStr "")]) (JStr ""));
      reflexivity.
  - apply (proj2 (validation_short_circuits quietEnv afterFirstCreate)).
    reflexivity.
Defined.

(** A body that is not JSON is answered 400 as well, the world untouched. *)
Lemma createHandler_malformed env w :
  createHandler None env w = (Ok (c_json (ErrorBody "Invalid JSON") 400), w).
Proof. reflexivity. Qed.

(** ** The handlers always answer *)

(** A create that finds its first candidate free, on a platform without
    faults on its two store calls, succeeds with that candidate. *)
Lemma createHandler_fresh env w body s eo ro z :
  getField body "encryptedPayload" = Ok (JStr s) ->
  getField body "expiryOption" = Ok eo ->
  getField body "readOnce" = Ok ro ->
  validatePayload (JStr s) = Valid ->
  occupied (kv w) (candidate env (draws w)) = false ->
  kvFails env (List.length (kvLog w)) = false ->
  kvFails env (S (List.length (kvLog w))) = false ->
  effectiveKvTtl eo ro = Ok (Num z) -> 60 <= z ->
  fst (createHandler (Some body) env w)
  = Ok (c_json (CreatedBody (JStr (candidate env (draws w)))) 200).
Proof.
  intros Hp Heo Hro Hv Hfree Hf0 Hf1 Httl Hz.
  rewrite (createHandler_valid _ _ _ _ _ _ Hp Heo Hro Hv).
  rewrite (allocLoop_step 2 0 JUndefined env w ltac:(lia)). cbn zeta.
  rewrite Hf0, Hfree. cbn [Z.leb Z.compare]. rewrite Httl.
  rewrite SECRETS_KV_put_run. cbn zeta.
  cbn [addOp addDraw kvLog]. rewrite length_app, Nat.add_comm. cbn [List.length Nat.add].
  rewrite Hf1. apply Z.leb_le in Hz. now rewrite Hz.
Qed.

(** The create handler keeps the store well formed. *)
Lemma createHandler_wellFormed raw env w :
  storeWellFormed (kv w) ->
  storeWellFormed (kv (snd (createHandler raw env w))).
Proof.
  intros Hwf.
  destruct raw as [body|]; [|exact Hwf].
  destruct (getField body "encryptedPayload") as [p|e] eqn:Hp.
  - destruct (getField_ok _ _ _ Hp "expiryOption") as [eo Heo].
    destruct (getField_ok _ _ _ Hp "readOnce") as [ro Hro].
    destruct (validatePayload p) as [|reason] eqn:Hv.
    + destruct (createHandler (Some body) env w) as [r w'] eqn:Hrun.
      pose proof Hrun as Hrun'.
      rewrite (createHandler_valid _ _ _ _ _ _ Hp Heo Hro Hv) in Hrun'.
      destruct (allocLoop 3 0 JUndefined env w) as [ra w1] eqn:Halloc.
      apply allocLoop_three in Halloc. destruct Halloc as [n [_ [Hw1 _]]].
      assert (Hkv1 : kv w1 = kv w) by (subst w1; reflexivity).
      destruct ra as [[a sid]|e];
        [|inversion Hrun'; subst; cbn [snd addLine kv]; now rewrite Hkv1].
      destruct (3 <=? a);
        [inversion Hrun'; subst; cbn [snd addLine kv]; now rewrite Hkv1|].
      destruct (effectiveKvTtl eo ro) as [ttl|e];
        [|inversion Hrun'; subst; cbn [snd addLine kv]; now rewrite Hkv1].
      destruct (validatePayload_valid_inv _ Hv) as [s [-> [Hne _]]].
      destruct sid as [| | | |k| |];
        try (inversion Hrun'; subst; cbn [snd addLine kv]; now rewrite Hkv1).
      rewrite SECRETS_KV_put_run in Hrun'. cbn zeta in Hrun'.
      destruct (kvFails env (List.length (kvLog w1)));
        [inversion Hrun'; subst; cbn [snd addLine addOp kv]; now rewrite Hkv1|].
      destruct ttl as [z|];
        [|inversion Hrun'; subst; cbn [snd addLine addOp kv]; now rewrite Hkv1].
      destruct (60 <=? z);
        [|inversion Hrun'; subst; cbn [snd addLine addOp kv]; now rewrite Hkv1].
      inversion Hrun'; subst r w'. cbn [snd setStore kv]. rewrite Hkv1.
      intros id e Hlook. destruct (decide (k = id)) as [->|Hneq].
      * rewrite lookup_insert_eq in Hlook. inversion Hlook; subst e. exact Hne.
      * rewrite lookup_insert_ne in Hlook by exact Hneq. eauto.
    + now rewrite (createHandler_invalid _ _ _ _ _ Hp Hv).
  - unfold createHandler. mrun. rewrite Hp. exact Hwf.
Qed.


Lemma createHandler_returns raw env w :
  exists resp, fst (createHandler raw env w) = Ok resp.
Proof.
  destruct raw as [body|]; [|eexists; reflexivity].
  destruct (getField body "encryptedPayload") as [p|e] eqn:Hp.
  - destruct (getField_ok _ _ _ Hp "expiryOption") as [eo Heo].
    destruct (getField_ok _ _ _ Hp "readOnce") as [ro Hro].
    destruct (validatePayload p) as [|reason] eqn:Hv.
    + rewrite (createHandler_valid _ _ _ _ _ _ Hp Heo Hro Hv).
      destruct (allocLoop 3 0 JUndefined env w) as [[[a sid]|e] w1];
        [|eexists; reflexivity].
      destruct (3 <=? a); [eexists; reflexivity|].
      destruct (effectiveKvTtl eo ro) as [ttl|e]; [|eexists; reflexivity].
      destruct (SECRETS_KV_put _ _ _ _ env w1) as [[[]|e] w2];
        eexists; reflexivity.
    + rewrite (createHandler_invalid _ _ _ _ _ Hp Hv).
      eexists; reflexivity.
  - unfold createHandler. mrun. rewrite Hp. eexists; reflexivity.
Qed.

Lemma readHandler_returns id env w :
  exists resp, fst (readHandler id env w) = Ok resp.
Proof.
  unfold readHandler. destruct (validateSecretId id); [|eexists; reflexivity].
  cbv beta delta [mbind M_bind bind tryCatch] iota.
  rewrite SECRETS_KV_getWithMetadata_run.
  destruct (kvFails env (List.length (kvLog w))); [eexists; reflexivity|].
  destruct (kv w !! id) as [e|]; [|eexists; reflexivity].
  cbn iota beta. destruct (negb (truthy (JStr (value e)))); [eexists; reflexivity|].
  destruct (optReadOnce (metadata e)); eexists; reflexivity.
Qed.

(** ** Admission control *)

Section AdmissionFacts.
Variable sha256hex : string -> string.

Lemma rateLimit_checked c next env w ls ll :
  String.eqb (method c) "OPTIONS" = false ->
  LIMITER_SHORT c = Some ls -> LIMITER_OK c = Some ll ->
  rateLimit sha256hex c next env w =
  match Promise_all2 (limit ls (getFingerprint sha256hex c))
                     (limit ll (getFingerprint sha256hex c)) with
  | Ok (shortLimit, longLimit) =>
      if negb (success shortLimit) then
        (Ok (c_json (ErrorBody "Too Many Requests (Rate limit exceeded: 30s)") 429), w)
      else if negb (success longLimit) then
        (Ok (c_json (ErrorBody "Too Many Requests (Rate limit exceeded: Daily)") 429), w)
      else match next env w with
           | (Ok resp, w') => (Ok resp, w')
           | (Throw e, w') => next env (addLine (LogErr "Rate Limit Error:" e) w')
           end
  | Throw e => next env (addLine (LogErr "Rate Limit Error:" e) w)
  end.
Proof.
  intros Hm Hs Hl. unfold rateLimit. rewrite Hm, Hs, Hl. mrun.
  destruct (Promise_all2 _ _) as [[sl lg]|e]; [|reflexivity].
  destruct (negb (success sl)); [reflexivity|].
  destruct (negb (success lg)); [reflexivity|].
  destruct (next env w) as [[resp|e] w']; reflexivity.
Qed.

(** A preflight request is not subject to admission control. *)
Lemma rateLimit_options c next env w :
  method c = "OPTIONS" ->
  rateLimit sha256hex c next env w = next env w.
Proof. intros Hm. unfold rateLimit. now rewrite Hm. Qed.

(** C7: when both limiters have answered and the short-window limiter
    denies, the answer is the 429 of the short window, whatever the
    long-window limiter said; the next handler is not run. *)
Theorem shortWindow_reported_first c next env w ls ll longLimit :
  String.eqb (method c) "OPTIONS" = false ->
  LIMITER_SHORT c = Some ls -> LIMITER_OK c = Some ll ->
  limit ls (getFingerprint sha256hex c) = Ok {| success := false |} ->
  limit ll (getFingerprint sha256hex c) = Ok longLimit ->
  rateLimit sha256hex c next env w =
  (Ok (c_json (ErrorBody "Too Many Requests (Rate limit exceeded: 30s)") 429), w).
Proof.
  intros Hm Hs Hl Hshort Hlong.
  rewrite (rateLimit_checked _ _ _ _ _ _ Hm Hs Hl), Hshort, Hlong. reflexivity.
Qed.

(** C6, amended: with both bindings present, a rejected limiter call lets
    the request through to the next handler after logging
    "Rate Limit Error:" with the error, while a normal allow adds no line;
    with a binding missing the request is answered 500 "Server
    configuration error", "Rate Limiter bindings missing" is logged, and
    the next handler is not run. *)
Theorem limiter_failure_policy c next env w :
  String.eqb (method c) "OPTIONS" = false ->
  (forall ls ll e,
      LIMITER_SHORT c = Some ls -> LIMITER_OK c = Some ll ->
      Promise_all2 (limit ls (getFingerprint sha256hex c))
                   (limit ll (getFingerprint sha256hex c)) = Throw e ->
      rateLimit sha256hex c next env w =
      next env (addLine (LogErr "Rate Limit Error:" e) w)) /\
  (forall ls ll resp w',
      LIMITER_SHORT c = Some ls -> LIMITER_OK c = Some ll ->
      limit ls (getFingerprint sha256hex c) = Ok {| success := true |} ->
      limit ll (getFingerprint sha256hex c) = Ok {| success := true |} ->
      next env w = (Ok resp, w') ->
      rateLimit sha256hex c next env w = (Ok resp, w')) /\
  (LIMITER_SHORT c = None \/ LIMITER_OK c = None ->
   rateLimit sha256hex c next env w =
   (Ok (c_json (ErrorBody "Server configuration error") 500),
    addLine (Log "Rate Limiter bindings missing") w)).
Proof.
  intros Hm. split; [|split].
  - intros ls ll e Hs Hl Hall.
    now rewrite (rateLimit_checked _ _ _ _ _ _ Hm Hs Hl), Hall.
  - intros ls ll resp w' Hs Hl Ha Hb Hnext.
    rewrite (rateLimit_checked _ _ _ _ _ _ Hm Hs Hl), Ha, Hb. cbn.
    now rewrite Hnext.
  - intros Hmiss. unfold rateLimit. rewrite Hm.
    destruct Hmiss as [-> | ->]; [reflexivity|].
    destruct (LIMITER_SHORT c); reflexivity.
Qed.
End AdmissionFacts.

Lemma shortWindow_reported_first_witness :
  rateLimit (fun s => s) (getContext (Some denyLimiter) (Some denyLimiter))
            (readHandler firstId) quietEnv afterFirstCreate
  = (Ok (c_json (ErrorBody "Too Many Requests (Rate limit exceeded: 30s)") 429),
     afterFirstCreate).
Proof.
  apply (shortWindow_reported_first (fun s => s)
           (getContext (Some denyLimiter) (Some denyLimiter))
           (readHandler firstId) quietEnv afterFirstCreate
           denyLimiter denyLimiter {| success := false |});
    reflexivity.
Defined.

(** C6, as stated, fails: with the short-window binding missing a GET is
    answered 500 and the read handler, which would have answered 200, is
    not run. *)
Lemma rateLimit_missing_binding_rejects :
  rateLimit (fun s => s) (getContext None (Some allowLimiter))
            (readHandler firstId) quietEnv afterFirstCreate
  = (Ok (c_json (ErrorBody "Server configuration error") 500),
     addLine (Log "Rate Limiter bindings missing") afterFirstCreate) /\
  status <$> (match fst (readHandler firstId quietEnv afterFirstCreate) with
              | Ok resp => Some resp
              | Throw _ => None
              end) = Some 200 /\
  ~ failsOpen (fun s => s).
Proof.
  split; [reflexivity|]. split; [vm_compute; reflexivity|].
  intros Hopen.
  destruct (Hopen (getContext None (Some allowLimiter)) (readHandler firstId)
                  quietEnv afterFirstCreate eq_refl (or_introl eq_refl))
    as [line Hline].
  vm_compute in Hline. discriminate Hline.
Qed.

Lemma limiter_failure_policy_witness :
  rateLimit (fun s => s) (getContext (Some brokenLimiter) (Some allowLimiter))
            (readHandler firstId) quietEnv afterFirstCreate
  = readHandler firstId quietEnv
      (addLine (LogErr "Rate Limit Error:" LimiterError) afterFirstCreate) /\
  rateLimit (fun s => s) (getContext (Some allowLimiter) None)
            (readHandler firstId) quietEnv afterFirstCreate
  = (Ok (c_json (ErrorBody "Server configuration error") 500),
     addLine (Log "Rate Limiter bindings missing") afterFirstCreate).
Proof.
  split.
  - apply (proj1 (limiter_failure_policy (fun s => s)
                    (getContext (Some brokenLimiter) (Some allowLimiter))
                    (readHandler firstId) quietEnv afterFirstCreate eq_refl)
                 brokenLimiter allowLimiter LimiterError eq_refl eq_refl eq_refl).
  - apply (proj2 (proj2 (limiter_failure_policy (fun s => s)
                    (getContext (Some allowLimiter) None)
                    (readHandler firstId) quietEnv afterFirstCreate eq_refl))).
    right. reflexivity.
Defined.

(** ** The expiry option kept in the metadata *)

(** When the option of a successful create converts to a key that the TTL
    table does not have, neither as an entry nor by inheritance, the secret
    lives for the default and the metadata, as stored and as read back,
    carries the option as it was supplied. *)
Lemma create_unrecognized_option env w body s eo ro sid w1 k :
  getField body "encryptedPayload" = Ok (JStr s) ->
  getField body "expiryOption" = Ok eo ->
  getField body "readOnce" = Ok ro ->
  validatePayload (JStr s) = Valid ->
  truthy ro = false ->
  ToPropertyKey eo = Ok k ->
  getProperty (TTL_MAP CONFIG) k = PUndefined ->
  createHandler (Some body) env w = (Ok (c_json (CreatedBody sid) 200), w1) ->
  exists id,
    sid = JStr id /\
    kv w1 !! id =
      Some {| value := s; expirationTtl := DEFAULT_TTL CONFIG;
              metadata := Some {| readOnce := false; creationTime := clock env;
                                  userExpiryOption := eo |} |} /\
    forall env2,
      kvFails env2 (List.length (kvLog w1)) = false ->
      fst (readHandler id env2 w1) =
      Ok (c_json (SecretBody (JStr s)
                    (Some {| readOnce := false; creationTime := clock env;
                             userExpiryOption := eo |})) 200).
Proof.
  intros Hp Heo Hro Hv Hfalsy Hk Hnone Hrun.
  destruct (create_success_inv _ _ _ _ _ _ _ _ _ Hp Heo Hro Hv Hrun)
    as [n [s' [z [Hn [-> [Hs [_ [Hfree [Httl [Hz ->]]]]]]]]]].
  inversion Hs; subst s'; clear Hs.
  unfold effectiveKvTtl in Httl. rewrite Hfalsy, Hk, Hnone in Httl.
  vm_compute in Httl. inversion Httl; subst z; clear Httl.
  exists (candidate env (draws w + n)). split; [reflexivity|].
  assert (Hlook : kv (setStore
            (<[candidate env (draws w + n) :=
                 {| value := s; expirationTtl := 86400;
                    metadata := Some (createMetadata env eo ro) |}]> (kv w))
            (addOp (OpPut (candidate env (draws w + n)) s (Num 86400)
                          (createMetadata env eo ro))
                   (afterAttempts env w (S n)))) !! candidate env (draws w + n)
          = Some {| value := s; expirationTtl := DEFAULT_TTL CONFIG;
                    metadata := Some {| readOnce := false; creationTime := clock env;
                                        userExpiryOption := eo |} |}).
  { cbn [setStore kv]. rewrite lookup_insert_eq. unfold createMetadata.
    now rewrite Hfalsy. }
  split; [exact Hlook|].
  intros env2 Hf2.
  destruct (validatePayload_valid_inv _ Hv) as [s0 [Hs0 [Hne _]]].
  inversion Hs0; subst s0.
  rewrite (readHandler_hit env2 _ _ _ (candidate_valid env (draws w + n)) Hlook);
    auto.
Qed.

(** C10: an option that is not one of the five bucket names does not
    always get the one-day default.  For ["constructor"] the lifetime
    computed on the create path is [NaN]: the lookup in the TTL table finds
    the property inherited from [Object.prototype] and the default is not
    taken.  The put is issued with that lifetime and with metadata that
    carry ["constructor"]; the backend as modelled rejects it and the
    create is answered 500.  An option given as the one-element array of
    ["5min"] converts to the key ["5min"] and gets 300 seconds. *)
Theorem create_inherited_key_lifetime :
  ownProperty (TTL_MAP CONFIG) "constructor" = None /\
  effectiveKvTtl (JStr "constructor") JUndefined = Ok NaN /\
  createHandler
    (Some (JObj [("encryptedPayload", JStr "x");
                 ("expiryOption", JStr "constructor")]))
    quietEnv emptyWorld
  = (Ok (c_json (ErrorBody "Failed to create secret") 500),
     addLine (LogErr "Create Error:" KvError)
       (addOp (OpPut firstId "x" NaN
                 {| readOnce := false; creationTime := clock quietEnv;
                    userExpiryOption := JStr "constructor" |})
              (afterAttempts quietEnv emptyWorld 1))) /\
  effectiveKvTtl (JArr [JStr "5min"]) JUndefined = Ok (Num 300).
Proof.
  split; [reflexivity|]. split; [reflexivity|]. split; [|reflexivity].
  vm_compute. reflexivity.
Qed.

(* ===================================================================== *)
(** * Further properties *)
(* ===================================================================== *)

(** ** Identifiers: what is generated is what is accepted *)

Lemma charOf_byteFor c : isAlnum c = true -> charOf (byteFor c) = String c EmptyString.
Proof.
  destruct c as [[] [] [] [] [] [] [] []]; intros H; vm_compute in H;
    try discriminate H; reflexivity.
Qed.

Lemma idOfBytes_bytesFor id : allAlnum id = true -> idOfBytes (bytesFor id) = id.
Proof.
  induction id as [|c id IH]; [reflexivity|].
  cbn [allAlnum bytesFor]. intros H. apply andb_true_iff in H as [Hc Hid].
  unfold idOfBytes. cbn [map]. rewrite (charOf_byteFor c Hc), joinWith_empty_cons.
  f_equal. now apply IH.
Qed.

Lemma bytesFor_length id : List.length (bytesFor id) = String.length id.
Proof. induction id as [|c id IH]; [reflexivity|]. cbn. now rewrite IH. Qed.

Lemma validateSecretId_valid_inv id :
  validateSecretId id = Valid ->
  id <> "" /\ Z.of_nat (String.length id) <= MAX_ID_LENGTH CONFIG /\ allAlnum id = true.
Proof.
  unfold validateSecretId. destruct id as [|c id]; [discriminate|].
  cbn [truthy isString String.eqb negb orb].
  destruct (Z.of_nat (String.length (String c id)) >? MAX_ID_LENGTH CONFIG) eqn:E;
    [discriminate|].
  unfold alnumPlus. destruct (allAlnum (String c id)); [|discriminate].
  intros _. split; [discriminate|]. split; [|reflexivity].
  rewrite Z.gtb_ltb, Z.ltb_ge in E. exact E.
Qed.

(** X1: the ids accepted on the read path are exactly the ids that
    [generateId] can produce from 1 to 32 random bytes: every generated id
    of such a length is accepted, and every accepted id is the image of
    some bytes. *)
Theorem valid_ids_are_generated_ids id :
  validateSecretId id = Valid <->
  exists vs, (1 <= List.length vs <= 32)%nat /\ idOfBytes vs = id.
Proof.
  split.
  - intros Hv. apply validateSecretId_valid_inv in Hv as [Hne [Hlen Hal]].
    exists (bytesFor id). split; [|now apply idOfBytes_bytesFor].
    rewrite bytesFor_length. cbn in Hlen.
    destruct id; [congruence|]. cbn [String.length] in *. lia.
  - intros [vs [Hlen <-]]. apply idOfBytes_valid; [lia|]. cbn. lia.
Qed.

(** ** Lifetimes *)

Lemma effectiveKvTtl_in_table expiryOption readOnce z :
  effectiveKvTtl expiryOption readOnce = Ok (Num z) -> In z tableLifetimes.
Proof.
  intros H. unfold effectiveKvTtl in H. destruct (truthy readOnce).
  - inversion H. vm_compute. tauto.
  - destruct (ToPropertyKey expiryOption) as [k|e]; [|discriminate].
    unfold getProperty in H.
    cbn [CONFIG TTL_MAP DEFAULT_TTL MIN_TTL ownProperty] in H.
    repeat match type of H with
           | context [String.eqb ?a ?b] => destruct (String.eqb a b)
           end;
      try (inversion H; vm_compute; tauto).
    destruct (inObjectPrototype k); [discriminate|].
    inversion H; vm_compute; tauto.
Qed.

(** X2: whatever the option and the flag are, a lifetime that comes out as
    a number is one of the five lifetimes of the TTL table (the default and
    the read-once lifetime are among them), so the floor at [MIN_TTL]
    never changes it. *)
Theorem effectiveKvTtl_numeric_values expiryOption readOnce z :
  effectiveKvTtl expiryOption readOnce = Ok (Num z) ->
  In z tableLifetimes /\ 300 <= z <= 86400 /\ Z.max z (MIN_TTL CONFIG) = z.
Proof.
  intros H. pose proof (effectiveKvTtl_in_table _ _ _ H) as Hin.
  split; [exact Hin|]. vm_compute in Hin. cbn [MIN_TTL CONFIG]. lia.
Qed.

Lemma effectiveKvTtl_numeric_values_witness :
  In 1800 tableLifetimes /\ 300 <= 1800 <= 86400 /\ Z.max 1800 (MIN_TTL CONFIG) = 1800.
Proof.
  apply (effectiveKvTtl_numeric_values (JArr [JStr "30min"]) JNull 1800).
  reflexivity.
Defined.

(** ** The runs of the create handler *)

Lemma afterAttempts_kvLog_length env w n :
  List.length (kvLog (afterAttempts env w n)) = (List.length (kvLog w) + n)%nat.
Proof.
  unfold afterAttempts, getsOf. cbn [kvLog].
  now rewrite length_app, length_map, length_seq.
Qed.

Lemma createHandler_run raw env w :
  CreateRun env w raw (fst (createHandler raw env w)) (snd (createHandler raw env w)).
Proof.
  destruct raw as [body|]; [|apply CreateMalformed].
  destruct (getField body "encryptedPayload") as [p|e] eqn:Hp.
  - destruct (getField_ok _ _ _ Hp "expiryOption") as [eo Heo].
    destruct (getField_ok _ _ _ Hp "readOnce") as [ro Hro].
    destruct (validatePayload p) as [|reason] eqn:Hv.
    + rewrite (createHandler_valid _ _ _ _ _ _ Hp Heo Hro Hv).
      destruct (allocLoop 3 0 JUndefined env w) as [ra w1] eqn:Halloc.
      apply allocLoop_three in Halloc. destruct Halloc as [n [Hn [-> Hra]]].
      destruct ra as [[a sid]|e].
      * destruct Hra as [[Ha3 [m [-> [Ha [Hc [-> Hfree]]]]]]|[-> [-> Hc]]].
        -- assert ((3 <=? a) = false) as -> by (apply Z.leb_gt; exact Ha3).
           destruct (validatePayload_valid_inv _ Hv) as [s [-> _]].
           destruct (effectiveKvTtl eo ro) as [ttl|e] eqn:Httl.
           ++ rewrite SECRETS_KV_put_run. cbn zeta.
              rewrite afterAttempts_kvLog_length.
              change (kv (afterAttempts env w (S m))) with (kv w).
              destruct (kvFails env (List.length (kvLog w) + S m)) eqn:Hf.
              ** eapply CreatePutFailed; eauto; lia.
              ** destruct ttl as [z|].
                 --- destruct (60 <=? z) eqn:Hz.
                     +++ eapply CreateStored; eauto; [lia | now apply Z.leb_le].
                     +++ eapply CreatePutFailed; eauto; lia.
                 --- eapply CreatePutFailed; eauto; lia.
           ++ eapply CreateTtlFailed; eauto; lia.
        -- eapply CreateBusy; eauto.
      * destruct Hra as [-> [m [-> [Hc Hk]]]].
        eapply CreateLookupFailed; eauto; lia.
    + rewrite (createHandler_invalid _ _ _ _ _ Hp Hv). eapply CreateInvalid; eauto.
  - unfold createHandler. mrun. rewrite Hp. now apply CreateNoBody.
Qed.

Lemma validatePayload_reasons p reason :
  validatePayload p = Invalid reason ->
  In reason ["Encrypted payload is required"; "Invalid payload type"; "Payload too large"].
Proof.
  unfold validatePayload.
  destruct p as [| |b|z|s|items|fields]; cbn [truthy negb];
    try (intros H; inversion H; cbn; tauto).
  - destruct b; intros H; inversion H; cbn; tauto.
  - destruct (z =? 0); intros H; inversion H; cbn; tauto.
  - destruct s as [|c s]; cbn [String.eqb negb];
      [intros H; inversion H; cbn; tauto|].
    assert ((Z.of_nat (String.length (String c s)) =? 0) = false) as ->
      by (apply Z.eqb_neq;
          change (String.length (String c s)) with (S (String.length s)); lia).
    destruct (Z.of_nat (String.length (String c s)) >? MAX_PAYLOAD_SIZE CONFIG);
      intros H; inversion H; cbn; tauto.
Qed.

(** X3: a create never leaves background work, and it changes the store in
    one case only: when it answers 200 with an id, the store has gained
    exactly the entry under that id, whose lookup was not truthy before;
    the entry has a non-empty value, one of the five table lifetimes, and
    metadata.  On every other answer the store is as it was. *)
Theorem createHandler_effect raw env w :
  let r := fst (createHandler raw env w) in
  let w' := snd (createHandler raw env w) in
  pending w' = pending w /\
  ((exists id e,
       r = Ok (c_json (CreatedBody (JStr id)) 200) /\
       occupied (kv w) id = false /\
       kv w' = <[id := e]> (kv w) /\
       value e <> "" /\ In (expirationTtl e) tableLifetimes /\
       exists md, metadata e = Some md)
   \/ ((forall sid st, r <> Ok (c_json (CreatedBody sid) st)) /\ kv w' = kv w)).
Proof.
  cbv zeta. destruct (createHandler_run raw env w);
    (split; [reflexivity|]); try (right; split; [discriminate | reflexivity]).
  left. eexists _, _. split; [reflexivity|]. split; [assumption|].
  split; [reflexivity|]. cbn [value expirationTtl metadata].
  match goal with
  | Hv : validatePayload (JStr ?s) = Valid, Httl : effectiveKvTtl _ _ = Ok (Num _) |- _ =>
      destruct (validatePayload_valid_inv _ Hv) as [s' [Hs [Hne _]]];
      inversion Hs; subst s';
      split; [exact Hne|];
      split; [exact (effectiveKvTtl_in_table _ _ _ Httl)|]
  end.
  eexists; reflexivity.
Qed.

(** X4: the id returned by a create is the first of its candidates whose
    lookup was not truthy: the candidates drawn before it were all taken,
    and no candidate is drawn after it. *)
Theorem create_returns_first_free raw env w sid st w' :
  createHandler raw env w = (Ok (c_json (CreatedBody sid) st), w') ->
  exists m,
    (m < 3)%nat /\ sid = JStr (candidate env (draws w + m)) /\
    occupied (kv w) (candidate env (draws w + m)) = false /\
    (forall i, (i < m)%nat -> occupied (kv w) (candidate env (draws w + i)) = true) /\
    draws w' = (draws w + S m)%nat.
Proof.
  intros Hrun. pose proof (createHandler_run raw env w) as Hcases.
  rewrite Hrun in Hcases. cbn [fst snd] in Hcases.
  inversion Hcases; subst. exists m. repeat split; auto.
Qed.

Lemma create_returns_first_free_witness :
  exists m,
    (m < 3)%nat /\
    JStr "BBBBBBBBBBBBBBBB" = JStr (candidate secondEnv (draws afterFirstCreate + m)) /\
    occupied (kv afterFirstCreate)
             (candidate secondEnv (draws afterFirstCreate + m)) = false /\
    (forall i, (i < m)%nat ->
       occupied (kv afterFirstCreate)
                (candidate secondEnv (draws afterFirstCreate + i)) = true) /\
    draws (snd (createHandler (Some sampleBody) secondEnv afterFirstCreate))
    = (draws afterFirstCreate + S m)%nat.
Proof.
  apply (create_returns_first_free (Some sampleBody) secondEnv afterFirstCreate
           (JStr "BBBBBBBBBBBBBBBB") 200).
  vm_compute. reflexivity.
Defined.

(** X5: the create handler always answers, and only in four ways: 200 with
    an id that the read path accepts; 400 with one of four reasons (the
    reason "Payload cannot be empty" is not among them); 503 "Service
    busy"; or 500 with the fixed message "Failed to create secret",
    whatever the error was. *)
Theorem createHandler_answers raw env w :
  exists resp,
    fst (createHandler raw env w) = Ok resp /\
    ((status resp = 200 /\ exists id, body resp = CreatedBody (JStr id) /\
                                      validateSecretId id = Valid)
     \/ (status resp = 400 /\
         exists reason,
           body resp = ErrorBody reason /\
           In reason ["Invalid JSON"; "Encrypted payload is required";
                      "Invalid payload type"; "Payload too large"])
     \/ resp = c_json (ErrorBody "Service busy, please try again") 503
     \/ resp = c_json (ErrorBody "Failed to create secret") 500).
Proof.
  destruct (createHandler_run raw env w); eexists; (split; [reflexivity|]).
  - right; left. split; [reflexivity|]. eexists; split; [reflexivity|]. cbn; tauto.
  - do 3 right. reflexivity.
  - right; left. split; [reflexivity|]. eexists; split; [reflexivity|].
    match goal with Hv : validatePayload _ = Invalid _ |- _ =>
      pose proof (validatePayload_reasons _ _ Hv) as Hin end.
    cbn in Hin |- *. tauto.
  - do 3 right. reflexivity.
  - right; right; left. reflexivity.
  - do 3 right. reflexivity.
  - do 3 right. reflexivity.
  - left. split; [reflexivity|]. eexists; split; [reflexivity|].
    apply candidate_valid.
Qed.

(** X6: a JSON body that is not an object is not a malformed body for the
    handler: [null] makes the destructuring throw and is answered 500,
    without any call on the store; a boolean, a number, a string or an
    array has no payload and is answered 400 "Encrypted payload is
    required", the world untouched. *)
Theorem create_non_object_body body env w :
  match body with
  | JObj _ => True
  | JUndefined | JNull =>
      fst (createHandler (Some body) env w)
      = Ok (c_json (ErrorBody "Failed to create secret") 500) /\
      kv (snd (createHandler (Some body) env w)) = kv w /\
      kvLog (snd (createHandler (Some body) env w)) = kvLog w
  | _ =>
      createHandler (Some body) env w =
      (Ok (c_json (ErrorBody "Encrypted payload is required") 400), w)
  end.
Proof. destruct body; try exact I; repeat split; reflexivity. Qed.

(** ** The runs of the read handler *)

Lemma readHandler_cases id env w :
  readHandler id env w =
  match validateSecretId id with
  | Invalid reason => (Ok (c_json (ErrorBody reason) 400), w)
  | Valid =>
      let w1 := addOp (OpGetWithMetadata id) w in
      if kvFails env (List.length (kvLog w))
      then (Ok (c_json (ErrorBody "Failed to retrieve secret") 500),
            addLine (LogErr "Retrieve Error:" KvError) w1)
      else match kv w !! id with
           | Some e =>
               if String.eqb (value e) ""
               then (Ok (c_json (ErrorBody "Secret not found or expired") 404), w1)
               else (Ok (c_json (SecretBody (JStr (value e)) (metadata e)) 200),
                     if optReadOnce (metadata e)
                     then addTask (DeleteTask id) w1 else w1)
           | None => (Ok (c_json (ErrorBody "Secret not found or expired") 404), w1)
           end
  end.
Proof.
  unfold readHandler. destruct (validateSecretId id); [|reflexivity].
  cbv beta delta [mbind M_bind bind tryCatch] iota.
  rewrite SECRETS_KV_getWithMetadata_run.
  destruct (kvFails env (List.length (kvLog w))); [reflexivity|].
  destruct (kv w !! id) as [e|]; [|reflexivity].
  cbn [truthy]. destruct (String.eqb (value e) ""); cbn [negb]; [reflexivity|].
  destruct (optReadOnce (metadata e)); reflexivity.
Qed.

Lemma readHandler_kv id env w : kv (snd (readHandler id env w)) = kv w.
Proof.
  rewrite readHandler_cases.
  destruct (validateSecretId id); [|reflexivity].
  cbv zeta. destruct (kvFails env (List.length (kvLog w))); [reflexivity|].
  destruct (kv w !! id) as [e|]; [|reflexivity].
  destruct (String.eqb (value e) ""); [reflexivity|].
  destruct (optReadOnce (metadata e)); reflexivity.
Qed.


(** X8: when the lookup of a well-formed id rejects, the read is answered
    500 with the fixed message "Failed to retrieve secret", the error goes
    to the console only, the store is untouched and no delete is left
    behind, even if the secret is read-once. *)
Theorem readHandler_lookup_failure id env w :
  validateSecretId id = Valid ->
  kvFails env (List.length (kvLog w)) = true ->
  readHandler id env w =
  (Ok (c_json (ErrorBody "Failed to retrieve secret") 500),
   addLine (LogErr "Retrieve Error:" KvError) (addOp (OpGetWithMetadata id) w)).
Proof. intros Hv Hf. rewrite readHandler_cases, Hv. cbv zeta. now rewrite Hf. Qed.

Lemma readHandler_lookup_failure_witness :
  readHandler firstId (failAt 2) afterOnceCreate =
  (Ok (c_json (ErrorBody "Failed to retrieve secret") 500),
   addLine (LogErr "Retrieve Error:" KvError)
           (addOp (OpGetWithMetadata firstId) afterOnceCreate)).
Proof.
  apply (readHandler_lookup_failure firstId (failAt 2) afterOnceCreate);
    vm_compute; reflexivity.
Defined.

Lemma runTask_delete id env w :
  runTask (DeleteTask id) env w =
  if kvFails env (List.length (kvLog w))
  then (Ok tt, addLine (LogErr "Delete Error:" KvError) (addOp (OpDelete id) w))
  else (Ok tt, setStore (delete id (kv w)) (addOp (OpDelete id) w)).
Proof.
  cbn [runTask]. unfold SECRETS_KV_delete, kvCall, writeStore. mrun.
  destruct (kvFails env (List.length (kvLog w))); reflexivity.
Qed.

(** ** Read-once secrets between the read and the cleanup *)

(** X9: read-once is not exactly-once.  A second read that arrives before
    the delete of the first has run is answered 200 with the same payload;
    two deletes are then pending, and when both go through the second one
    finds nothing to do: the key is gone and nothing is logged. *)
Theorem readOnce_second_read_before_cleanup env1 env2 env3 w id e md :
  pending w = [] ->
  validateSecretId id = Valid ->
  kv w !! id = Some e -> value e <> "" ->
  metadata e = Some md -> readOnce md = true ->
  kvFails env1 (List.length (kvLog w)) = false ->
  kvFails env2 (S (List.length (kvLog w))) = false ->
  let answer := Ok (c_json (SecretBody (JStr (value e)) (Some md)) 200) in
  let w1 := snd (readHandler id env1 w) in
  let w2 := snd (readHandler id env2 w1) in
  fst (readHandler id env1 w) = answer /\
  fst (readHandler id env2 w1) = answer /\
  pending w2 = [DeleteTask id; DeleteTask id] /\
  (kvFails env3 (2 + List.length (kvLog w)) = false ->
   kvFails env3 (3 + List.length (kvLog w)) = false ->
   fst (settle env3 w2) = Ok tt /\
   kv (snd (settle env3 w2)) = delete id (kv w) /\
   console (snd (settle env3 w2)) = console w).
Proof.
  intros Hp Hv Hl Hne Hmd Hro Hf1 Hf2. cbv zeta.
  rewrite (readHandler_hit env1 w id e Hv Hl Hne Hf1), Hmd.
  cbn [optReadOnce fst snd]. rewrite Hro.
  set (w1 := addTask (DeleteTask id) (addOp (OpGetWithMetadata id) w)).
  assert (Hl1 : kv w1 !! id = Some e) by exact Hl.
  assert (Hlen1 : List.length (kvLog w1) = S (List.length (kvLog w))).
  { subst w1. cbn [addTask addOp kvLog]. rewrite length_app. cbn. lia. }
  assert (Hf2' : kvFails env2 (List.length (kvLog w1)) = false) by now rewrite Hlen1.
  rewrite (readHandler_hit env2 w1 id e Hv Hl1 Hne Hf2'), Hmd.
  cbn [optReadOnce fst snd]. rewrite Hro.
  split; [reflexivity|]. split; [reflexivity|].
  set (w2 := addTask (DeleteTask id) (addOp (OpGetWithMetadata id) w1)).
  assert (Hp2 : pending w2 = [DeleteTask id; DeleteTask id]).
  { subst w2 w1. cbn [addTask addOp pending]. now rewrite Hp. }
  split; [exact Hp2|].
  intros Hf3 Hf4.
  assert (Hlen2 : List.length (kvLog w2) = (2 + List.length (kvLog w))%nat).
  { subst w2. cbn [addTask addOp kvLog]. rewrite length_app, Hlen1. cbn. lia. }
  assert (Hkv2 : kv w2 = kv w) by reflexivity.
  assert (Hcon2 : console w2 = console w) by reflexivity.
  clearbody w2. clear Hl1 Hlen1 Hf2'. clearbody w1.
  unfold settle, takePending. cbv beta delta [mbind M_bind bind] iota.
  rewrite Hp2. cbn [runTasks]. cbv beta delta [mbind M_bind bind] iota.
  rewrite runTask_delete. cbn [clearPending kvLog].
  rewrite Hlen2, Hf3.
  rewrite runTask_delete. cbn [setStore addOp clearPending kvLog].
  rewrite length_app, Hlen2. cbn [List.length].
  replace (2 + List.length (kvLog w) + 1)%nat with (3 + List.length (kvLog w))%nat by lia.
  rewrite Hf4. cbn [ret fst snd setStore addOp kv console clearPending].
  rewrite Hkv2, Hcon2.
  split; [reflexivity|]. split; [|reflexivity].
  apply delete_delete_eq.
Qed.

Lemma readOnce_second_read_before_cleanup_witness :
  fst (readHandler firstId quietEnv (snd (readHandler firstId quietEnv afterOnceCreate)))
  = Ok (c_json (SecretBody (JStr "x") (Some onceMetadata)) 200) /\
  pending (snd (readHandler firstId quietEnv
                  (snd (readHandler firstId quietEnv afterOnceCreate))))
  = [DeleteTask firstId; DeleteTask firstId].
Proof.
  destruct (readOnce_second_read_before_cleanup quietEnv quietEnv quietEnv
              afterOnceCreate firstId onceEntry onceMetadata
              ltac:(vm_compute; reflexivity) ltac:(vm_compute; reflexivity)
              ltac:(vm_compute; reflexivity) ltac:(discriminate)
              eq_refl eq_refl eq_refl eq_refl)
    as [_ [Hsecond [Hpending _]]].
  split; [exact Hsecond | exact Hpending].
Defined.

(** X10: when the delete of a read-once secret rejects, the secret stays:
    the failure is logged, the store is as it was, and the next read is
    answered 200 with the payload again and leaves a new delete. *)
Theorem readOnce_failed_cleanup_keeps_secret env1 env2 env3 w id e md :
  pending w = [] ->
  validateSecretId id = Valid ->
  kv w !! id = Some e -> value e <> "" ->
  metadata e = Some md -> readOnce md = true ->
  kvFails env1 (List.length (kvLog w)) = false ->
  kvFails env2 (S (List.length (kvLog w))) = true ->
  kvFails env3 (2 + List.length (kvLog w)) = false ->
  let w1 := snd (readHandler id env1 w) in
  let w2 := snd (settle env2 w1) in
  fst (settle env2 w1) = Ok tt /\
  kv w2 = kv w /\
  console w2 = console w ++ [LogErr "Delete Error:" KvError] /\
  fst (readHandler id env3 w2)
  = Ok (c_json (SecretBody (JStr (value e)) (Some md)) 200) /\
  pending (snd (readHandler id env3 w2)) = [DeleteTask id].
Proof.
  intros Hp Hv Hl Hne Hmd Hro Hf1 Hf2 Hf3. cbv zeta.
  rewrite (readHandler_hit env1 w id e Hv Hl Hne Hf1), Hmd.
  cbn [optReadOnce fst snd]. rewrite Hro.
  set (w1 := addTask (DeleteTask id) (addOp (OpGetWithMetadata id) w)).
  assert (Hp1 : pending w1 = [DeleteTask id])
    by (subst w1; cbn [addTask addOp pending]; now rewrite Hp).
  assert (Hlen1 : List.length (kvLog w1) = S (List.length (kvLog w))).
  { subst w1. cbn [addTask addOp kvLog]. rewrite length_app. cbn. lia. }
  rewrite (settle_delete env2 w1 id Hp1), Hlen1, Hf2. cbn [fst snd].
  set (w2 := addLine _ _).
  assert (Hl2 : kv w2 !! id = Some e) by exact Hl.
  assert (Hlen2 : List.length (kvLog w2) = (2 + List.length (kvLog w))%nat).
  { subst w2. cbn [addLine addOp clearPending kvLog]. rewrite length_app, Hlen1. cbn. lia. }
  assert (Hf3' : kvFails env3 (List.length (kvLog w2)) = false) by now rewrite Hlen2.
  rewrite (readHandler_hit env3 w2 id e Hv Hl2 Hne Hf3'), Hmd.
  cbn [optReadOnce fst snd]. rewrite Hro.
  repeat split; reflexivity.
Qed.

Lemma readOnce_failed_cleanup_keeps_secret_witness :
  kv (snd (settle (failAt 3) (snd (readHandler firstId quietEnv afterOnceCreate))))
  = kv afterOnceCreate /\
  fst (readHandler firstId quietEnv
         (snd (settle (failAt 3) (snd (readHandler firstId quietEnv afterOnceCreate)))))
  = Ok (c_json (SecretBody (JStr "x") (Some onceMetadata)) 200).
Proof.
  destruct (readOnce_failed_cleanup_keeps_secret quietEnv (failAt 3) quietEnv
              afterOnceCreate firstId onceEntry onceMetadata
              ltac:(vm_compute; reflexivity) ltac:(vm_compute; reflexivity)
              ltac:(vm_compute; reflexivity) ltac:(discriminate)
              eq_refl eq_refl eq_refl
              ltac:(vm_compute; reflexivity) eq_refl)
    as [_ [Hkv [_ [Hread _]]]].
  split; [exact Hkv | exact Hread].
Defined.

(** X11: the whole life of a read-once secret.  A create with a truthy
    [readOnce] that returns an id stores the payload for the read-once
    lifetime, whatever the expiry option; the read of the id answers 200
    with the payload and [readOnce] true in the metadata; once the delete
    has gone through, the store is exactly what it was before the create
    (on a well-formed store). *)
Theorem readOnce_lifecycle env env2 env3 w body s eo ro sid w1 :
  storeWellFormed (kv w) -> pending w = [] ->
  getField body "encryptedPayload" = Ok (JStr s) ->
  getField body "expiryOption" = Ok eo ->
  getField body "readOnce" = Ok ro ->
  truthy ro = true ->
  createHandler (Some body) env w = (Ok (c_json (CreatedBody sid) 200), w1) ->
  kvFails env2 (List.length (kvLog w1)) = false ->
  kvFails env3 (S (List.length (kvLog w1))) = false ->
  exists id,
    sid = JStr id /\
    (exists e, kv w1 !! id = Some e /\ expirationTtl e = READ_ONCE_TTL CONFIG) /\
    fst (readHandler id env2 w1)
    = Ok (c_json (SecretBody (JStr s)
                    (Some {| readOnce := true; creationTime := clock env;
                             userExpiryOption := eo |})) 200) /\
    fst (settle env3 (snd (readHandler id env2 w1))) = Ok tt /\
    kv (snd (settle env3 (snd (readHandler id env2 w1)))) = kv w.
Proof.
  intros Hwf Hp Hpay Heo Hro Htruthy Hrun Hf2 Hf3.
  assert (Hv : validatePayload (JStr s) = Valid).
  { destruct (validatePayload (JStr s)) as [|reason] eqn:Hv; [reflexivity|].
    rewrite (createHandler_invalid _ _ _ _ _ Hpay Hv) in Hrun. discriminate. }
  destruct (create_success_inv _ _ _ _ _ _ _ _ _ Hpay Heo Hro Hv Hrun)
    as [n [s' [z [Hn [-> [Hs [_ [Hfree [Httl [Hz Hw1]]]]]]]]]].
  inversion Hs; subst s'; clear Hs.
  rewrite (effectiveKvTtl_readOnce eo ro Htruthy) in Httl.
  inversion Httl; subst z; clear Httl.
  set (id := candidate env (draws w + n)) in *.
  set (md := {| readOnce := true; creationTime := clock env; userExpiryOption := eo |}).
  set (e := {| value := s; expirationTtl := READ_ONCE_TTL CONFIG; metadata := Some md |}).
  assert (Hmd : createMetadata env eo ro = md)
    by (unfold createMetadata, md; now rewrite Htruthy).
  rewrite Hmd in Hw1.
  assert (Hkv1 : kv w1 = <[id := e]> (kv w)) by (subst w1; reflexivity).
  assert (Hl1 : kv w1 !! id = Some e) by (rewrite Hkv1; apply lookup_insert_eq).
  assert (Hp1 : pending w1 = []) by (subst w1; exact Hp).
  destruct (validatePayload_valid_inv _ Hv) as [s0 [Hs0 [Hne _]]].
  inversion Hs0; subst s0; clear Hs0.
  assert (Hvalid : validateSecretId id = Valid) by apply candidate_valid.
  assert (Hnone : kv w !! id = None) by now apply occupied_false_free.
  clearbody id. clear Hw1 Hrun.
  exists id. split; [reflexivity|]. split; [exists e; split; [exact Hl1 | reflexivity]|].
  rewrite (readHandler_hit env2 w1 id e Hvalid Hl1 Hne Hf2).
  cbn [metadata e optReadOnce readOnce md fst snd].
  split; [reflexivity|].
  set (w2 := addTask (DeleteTask id) (addOp (OpGetWithMetadata id) w1)).
  assert (Hp2 : pending w2 = [DeleteTask id])
    by (subst w2; cbn [addTask addOp pending]; now rewrite Hp1).
  assert (Hlen2 : List.length (kvLog w2) = S (List.length (kvLog w1))).
  { subst w2. cbn [addTask addOp kvLog]. rewrite length_app. cbn. lia. }
  rewrite (settle_delete env3 w2 id Hp2), Hlen2, Hf3. cbn [fst snd setStore kv].
  split; [reflexivity|].
  change (kv w2) with (kv w1). rewrite Hkv1.
  now apply delete_insert_id.
Qed.

Lemma readOnce_lifecycle_witness :
  exists id,
    JStr firstId = JStr id /\
    (exists e, kv afterOnceCreate !! id = Some e /\
               expirationTtl e = READ_ONCE_TTL CONFIG) /\
    fst (readHandler id quietEnv afterOnceCreate)
    = Ok (c_json (SecretBody (JStr "x")
                    (Some {| readOnce := true; creationTime := clock quietEnv;
                             userExpiryOption := JUndefined |})) 200) /\
    fst (settle quietEnv (snd (readHandler id quietEnv afterOnceCreate))) = Ok tt /\
    kv (snd (settle quietEnv (snd (readHandler id quietEnv afterOnceCreate))))
    = kv emptyWorld.
Proof.
  apply (readOnce_lifecycle quietEnv quietEnv quietEnv emptyWorld onceBody "x"
           JUndefined (JBool true) (JStr firstId) afterOnceCreate).
  - intros id e Hl. vm_compute in Hl. discriminate Hl.
  - reflexivity.
  - reflexivity.
  - reflexivity.
  - reflexivity.
  - reflexivity.
  - vm_compute. reflexivity.
  - reflexivity.
  - reflexivity.
Defined.

(** ** The store stays well formed *)

Lemma runTasks_wellFormed ts : forall env w,
  storeWellFormed (kv w) ->
  fst (runTasks ts env w) = Ok tt /\
  storeWellFormed (kv (snd (runTasks ts env w))).
Proof.
  induction ts as [|[id] ts IH]; intros env w Hwf; [split; [reflexivity | exact Hwf]|].
  cbn [runTasks]. cbv beta delta [mbind M_bind bind] iota.
  rewrite runTask_delete.
  destruct (kvFails env (List.length (kvLog w))).
  - apply IH. exact Hwf.
  - apply IH. cbn [setStore kv addOp]. intros k e Hk.
    apply lookup_delete_Some in Hk as [_ Hk]. eauto.
Qed.

(** X12: no handler and no cleanup ever puts an empty value in the store:
    from a store whose values are all non-empty, a create, a read and the
    run of any pending deletes each leave such a store; the cleanup never
    throws, whichever deletes reject. *)
Theorem storeWellFormed_invariant w :
  storeWellFormed (kv w) ->
  (forall raw env, storeWellFormed (kv (snd (createHandler raw env w)))) /\
  (forall id env, storeWellFormed (kv (snd (readHandler id env w)))) /\
  (forall env, fst (settle env w) = Ok tt /\
               storeWellFormed (kv (snd (settle env w)))).
Proof.
  intros Hwf. split; [|split].
  - intros raw env. now apply createHandler_wellFormed.
  - intros id env. now rewrite readHandler_kv.
  - intros env. unfold settle, takePending.
    cbv beta delta [mbind M_bind bind] iota.
    apply (runTasks_wellFormed (pending w) env (clearPending w)). exact Hwf.
Qed.

Lemma storeWellFormed_invariant_witness :
  storeWellFormed (kv afterFirstCreate) /\
  storeWellFormed (kv (snd (readHandler firstId quietEnv emptyWorld))).
Proof.
  destruct (storeWellFormed_invariant emptyWorld
              ltac:(intros id e Hl; vm_compute in Hl; discriminate Hl))
    as [Hcreate [Hread _]].
  split; [apply (Hcreate (Some sampleBody) quietEnv) | apply Hread].
Defined.

(** ** Admission control in front of the handlers *)

Section AdmissionComposition.
Variable sha256hex : string -> string.

(** X13: when both limiters allow the request, the middleware is
    transparent for the two routes: the answer and the world are those of
    the handler alone, which runs once (the handlers catch their own
    errors, so the middleware's [catch] never runs the handler again). *)
Theorem admitted_request_reaches_handler c env w ls ll :
  String.eqb (method c) "OPTIONS" = false ->
  LIMITER_SHORT c = Some ls -> LIMITER_OK c = Some ll ->
  limit ls (getFingerprint sha256hex c) = Ok {| success := true |} ->
  limit ll (getFingerprint sha256hex c) = Ok {| success := true |} ->
  (forall raw, rateLimit sha256hex c (createHandler raw) env w = createHandler raw env w) /\
  (forall id, rateLimit sha256hex c (readHandler id) env w = readHandler id env w).
Proof.
  intros Hm Hs Hl Hshort Hlong. split.
  - intros raw. rewrite (rateLimit_checked _ _ _ _ _ _ _ Hm Hs Hl), Hshort, Hlong.
    cbn [Promise_all2 success negb].
    destruct (createHandler_returns raw env w) as [resp Hresp].
    destruct (createHandler raw env w) as [[r|e] w']; [reflexivity | discriminate].
  - intros id. rewrite (rateLimit_checked _ _ _ _ _ _ _ Hm Hs Hl), Hshort, Hlong.
    cbn [Promise_all2 success negb].
    destruct (readHandler_returns id env w) as [resp Hresp].
    destruct (readHandler id env w) as [[r|e] w']; [reflexivity | discriminate].
Qed.

(** X14: when the short-window limiter allows and the long-window limiter
    denies, the request is answered 429 with the daily message; the next
    handler is not run and the world is untouched. *)
Theorem longWindow_denial c next env w ls ll :
  String.eqb (method c) "OPTIONS" = false ->
  LIMITER_SHORT c = Some ls -> LIMITER_OK c = Some ll ->
  limit ls (getFingerprint sha256hex c) = Ok {| success := true |} ->
  limit ll (getFingerprint sha256hex c) = Ok {| success := false |} ->
  rateLimit sha256hex c next env w =
  (Ok (c_json (ErrorBody "Too Many Requests (Rate limit exceeded: Daily)") 429), w).
Proof.
  intros Hm Hs Hl Hshort Hlong.
  now rewrite (rateLimit_checked _ _ _ _ _ _ _ Hm Hs Hl), Hshort, Hlong.
Qed.

End AdmissionComposition.

Lemma admitted_request_reaches_handler_witness :
  rateLimit (fun s => s) (getContext (Some allowLimiter) (Some allowLimiter))
            (createHandler (Some sampleBody)) quietEnv emptyWorld
  = createHandler (Some sampleBody) quietEnv emptyWorld /\
  rateLimit (fun s => s) (getContext (Some allowLimiter) (Some allowLimiter))
            (readHandler firstId) quietEnv emptyWorld
  = readHandler firstId quietEnv emptyWorld.
Proof.
  destruct (admitted_request_reaches_handler (fun s => s)
              (getContext (Some allowLimiter) (Some allowLimiter))
              quietEnv emptyWorld allowLimiter allowLimiter
              eq_refl eq_refl eq_refl eq_refl eq_refl)
    as [Hcreate Hread].
  split; [apply Hcreate | apply Hread].
Defined.

Lemma longWindow_denial_witness :
  rateLimit (fun s => s) (getContext (Some allowLimiter) (Some denyLimiter))
            (readHandler firstId) quietEnv afterFirstCreate
  = (Ok (c_json (ErrorBody "Too Many Requests (Rate limit exceeded: Daily)") 429),
     afterFirstCreate).
Proof.
  apply (longWindow_denial (fun s => s)
           (getContext (Some allowLimiter) (Some denyLimiter))
           (readHandler firstId) quietEnv afterFirstCreate
           allowLimiter denyLimiter);
    reflexivity.
Defined.

(** ** The older copy against the current module *)

Lemma string_app_assoc (a b c : string) : (a +:+ b) +:+ c = a +:+ (b +:+ c).
Proof.
  induction a as [|x a IH]; [reflexivity|].
  change (String x ((a +:+ b) +:+ c) = String x (a +:+ (b +:+ c))). now rewrite IH.
Qed.

Lemma string_app_nil_r (a : string) : a +:+ "" = a.
Proof.
  induction a as [|x a IH]; [reflexivity|].
  change (String x (a +:+ "") = String x a). now rewrite IH.
Qed.

Lemma idOfBytes_app_cons v vs : idOfBytes (v :: vs) = charOf v +:+ idOfBytes vs.
Proof.
  destruct (charOf_alnum v) as [c [Hc _]]. unfold idOfBytes. cbn [map].
  now rewrite Hc, joinWith_empty_cons.
Qed.

(** The invariant of the [for] loop: the result so far, followed by the
    characters of the bytes still to come. *)
Lemma legacy_loop_acc vs : forall acc,
  fold_left (fun result v => result +:+ Legacy.charAt v) vs acc
  = acc +:+ idOfBytes vs.
Proof.
  induction vs as [|v vs IH]; intros acc.
  - cbn [fold_left]. symmetry. apply string_app_nil_r.
  - cbn [fold_left]. rewrite IH, idOfBytes_app_cons.
    change (Legacy.charAt v) with (charOf v). apply string_app_assoc.
Qed.

Lemma legacy_idOfBytes_same vs : Legacy.idOfBytes vs = idOfBytes vs.
Proof. unfold Legacy.idOfBytes. now rewrite legacy_loop_acc. Qed.

Lemma legacy_generateId_run length env w :
  Legacy.generateId length env w = generateId length env w.
Proof.
  unfold Legacy.generateId, generateId, getRandomValues.
  cbv beta delta [mbind M_bind bind mret M_ret ret] iota.
  now rewrite legacy_idOfBytes_same.
Qed.

(** X15: the two ways of writing [generateId] give the same id: the [for]
    loop that appends [charAt] to a result string and the [map]/[join]
    over the array agree on every array of bytes, and so do the two
    functions on every draw. *)
Theorem legacy_generateId_same :
  (forall vs, Legacy.idOfBytes vs = idOfBytes vs) /\
  (forall length env w, Legacy.generateId length env w = generateId length env w).
Proof. split; [apply legacy_idOfBytes_same | apply legacy_generateId_run]. Qed.

Lemma legacy_validatePayload_valid v :
  Legacy.validatePayload v = Valid <-> validatePayload v = Valid.
Proof.
  unfold Legacy.validatePayload, validatePayload.
  destruct (negb (truthy v)); [tauto|].
  destruct v; try tauto.
  destruct (Z.of_nat (String.length s) =? 0); [tauto|].
  destruct (Z.of_nat (String.length s) >? MAX_PAYLOAD_SIZE CONFIG);
    split; intros H; (discriminate H || reflexivity).
Qed.

Lemma legacy_validateSecretId_valid id :
  Legacy.validateSecretId id = Valid <-> validateSecretId id = Valid.
Proof.
  unfold Legacy.validateSecretId, validateSecretId.
  cbn [isString negb orb].
  destruct (negb (truthy (JStr id))); cbn [orb];
    [split; intros H; discriminate H|].
  destruct (Z.of_nat (String.length id) >? MAX_ID_LENGTH CONFIG);
    [split; intros H; discriminate H|].
  destruct (negb (alnumPlus id)); [split; intros H; discriminate H | tauto].
Qed.

Lemma legacy_getEffectiveTTL_same expiryOption readOnce :
  Legacy.getEffectiveTTL expiryOption readOnce = effectiveKvTtl expiryOption readOnce.
Proof.
  unfold Legacy.getEffectiveTTL, effectiveKvTtl.
  destruct (truthy readOnce); [reflexivity|].
  destruct (ToPropertyKey expiryOption); reflexivity.
Qed.

(** X16: the two copies accept the same payloads and the same ids (their
    reasons for a rejection differ: the older copy reports an id that is
    too long as a format error), and the function [getEffectiveTTL] of the
    older copy computes what the inline expression of the current create
    handler computes, on every option and flag. *)
Theorem legacy_helpers_agree :
  (forall v, Legacy.validatePayload v = Valid <-> validatePayload v = Valid) /\
  (forall id, Legacy.validateSecretId id = Valid <-> validateSecretId id = Valid) /\
  (forall id, Z.of_nat (String.length id) > MAX_ID_LENGTH CONFIG ->
              Legacy.validateSecretId id = Invalid "Invalid secret ID format" /\
              validateSecretId id = Invalid "Invalid ID length") /\
  (forall expiryOption readOnce,
      Legacy.getEffectiveTTL expiryOption readOnce
      = effectiveKvTtl expiryOption readOnce).
Proof.
  split; [exact legacy_validatePayload_valid|].
  split; [exact legacy_validateSecretId_valid|].
  split; [|exact legacy_getEffectiveTTL_same].
  intros id Hlong. unfold Legacy.validateSecretId, validateSecretId.
  destruct id as [|c id]; [cbn in Hlong; lia|].
  cbn [truthy isString String.eqb negb orb].
  assert ((Z.of_nat (String.length (String c id)) >? MAX_ID_LENGTH CONFIG) = true) as ->
    by (rewrite Z.gtb_ltb; apply Z.ltb_lt; lia).
  split; reflexivity.
Qed.

Lemma legacy_allocLoop_step fuel attempts sid env w :
  Legacy.allocLoop (S fuel) attempts sid env w =
  let id := candidate env (draws w) in
  let w1 := addOp (OpGet id) (addDraw w) in
  if kvFails env (List.length (kvLog w)) then (Throw KvError, w1)
  else if occupied (kv w) id
       then if attempts + 1 <? 3
            then Legacy.allocLoop fuel (attempts + 1) (JStr id) env w1
            else (Ok (attempts + 1, JStr id), w1)
       else (Ok (attempts, JStr id), w1).
Proof.
  cbn [Legacy.allocLoop]. cbv beta delta [mbind M_bind bind] iota.
  rewrite legacy_generateId_run, generateId_run, SECRETS_KV_get_run.
  cbn [kvLog addDraw kv].
  destruct (kvFails env (List.length (kvLog w))); [reflexivity|].
  unfold occupied. cbn zeta.
  destruct (truthy (lookupValue (kv w) (candidate env (draws w)))); [|reflexivity].
  cbn [negb]. destruct (attempts + 1 <? 3); reflexivity.
Qed.

(** The [do ... while] loop and the [while] loop make the same attempts. *)
Lemma legacy_allocLoop_same fuel : forall attempts sid env w,
  attempts < 3 ->
  Legacy.allocLoop (S fuel) attempts sid env w = allocLoop (S fuel) attempts sid env w.
Proof.
  induction fuel as [|fuel IH]; intros attempts sid env w Hlt;
    rewrite legacy_allocLoop_step, (allocLoop_step _ _ _ _ _ Hlt); cbn zeta;
    destruct (kvFails env (List.length (kvLog w))); try reflexivity;
    destruct (occupied (kv w) (candidate env (draws w))); try reflexivity;
    destruct (Z.ltb_spec (attempts + 1) 3) as [Hlt'|Hge].
  - reflexivity.
  - reflexivity.
  - now apply IH.
  - cbn [allocLoop]. assert ((attempts + 1 <? 3) = false) as -> by (apply Z.ltb_ge; lia).
    reflexivity.
Qed.

Lemma legacy_createHandler_valid env w body p eo ro :
  getField body "encryptedPayload" = Ok p ->
  getField body "expiryOption" = Ok eo ->
  getField body "readOnce" = Ok ro ->
  Legacy.validatePayload p = Valid ->
  Legacy.createHandler (Some body) env w =
  match allocLoop 3 0 JUndefined env w with
  | (Throw e, w1) =>
      (Ok (Legacy.Detailed 500 "Failed to create secret" e),
       addLine (LogErr "Error creating secret:" e) w1)
  | (Ok (attempts, secretId), w1) =>
      if 3 <=? attempts
      then (Ok (Legacy.Same (c_json (ErrorBody "Failed to create secret") 500)),
            addLine (Log "Failed to generate unique ID after multiple attempts") w1)
      else match effectiveKvTtl eo ro with
           | Throw e =>
               (Ok (Legacy.Detailed 500 "Failed to create secret" e),
                addLine (LogErr "Error creating secret:" e) w1)
           | Ok ttl =>
               match SECRETS_KV_put secretId p ttl (createMetadata env eo ro) env w1 with
               | (Ok _, w2) => (Ok (Legacy.Same (c_json (CreatedBody secretId) 200)), w2)
               | (Throw e, w2) =>
                   (Ok (Legacy.Detailed 500 "Failed to create secret" e),
                    addLine (LogErr "Error creating secret:" e) w2)
               end
           end
  end.
Proof.
  intros Hp Heo Hro Hv. unfold Legacy.createHandler. mrun.
  rewrite Hp, Heo, Hro, Hv.
  rewrite (legacy_allocLoop_same 2 0 JUndefined env w ltac:(lia)).
  destruct (allocLoop 3 0 JUndefined env w) as [[[a sid]|e] w1]; [|reflexivity].
  destruct (3 <=? a); [reflexivity|].
  rewrite legacy_getEffectiveTTL_same.
  destruct (effectiveKvTtl eo ro) as [ttl|e]; [|reflexivity].
  unfold createMetadata.
  destruct (SECRETS_KV_put _ _ _ _ env w1) as [[[]|e] w2]; reflexivity.
Qed.

Ltac agree_tac :=
  cbn [fst snd];
  split; [repeat split; reflexivity|];
  split; [intros sid0; split; intros Hsid0; inversion Hsid0; reflexivity|];
  eexists _, _; split; [reflexivity|]; split; [reflexivity|];
  split; cbn; intros Hs; first [reflexivity | discriminate Hs | congruence].

(** X17: on every request and platform the two create handlers treat the
    store alike: they make the same calls on it, draw the same candidates
    and leave the same store; one returns an id exactly when the other
    returns that id.  Their status codes are the same except on
    exhaustion, where the current module answers 503 and the older copy
    500; the older copy never answers 503. *)
Theorem legacy_create_agrees raw env w :
  let r := createHandler raw env w in
  let a := Legacy.createHandler raw env w in
  (kv (snd a) = kv (snd r) /\ kvLog (snd a) = kvLog (snd r) /\
   draws (snd a) = draws (snd r) /\ pending (snd a) = pending (snd r)) /\
  (forall sid, fst a = Ok (Legacy.Same (c_json (CreatedBody sid) 200)) <->
               fst r = Ok (c_json (CreatedBody sid) 200)) /\
  (exists ans resp, fst a = Ok ans /\ fst r = Ok resp /\
                    (status resp = 503 -> statusOf ans = 500) /\
                    (status resp <> 503 -> statusOf ans = status resp)).
Proof.
  cbv zeta. destruct raw as [body|]; [|agree_tac].
  destruct (getField body "encryptedPayload") as [p|e] eqn:Hp.
  - destruct (getField_ok _ _ _ Hp "expiryOption") as [eo Heo].
    destruct (getField_ok _ _ _ Hp "readOnce") as [ro Hro].
    pose proof (legacy_validatePayload_valid p) as Hagree.
    destruct (validatePayload p) as [|reason] eqn:Hv;
      destruct (Legacy.validatePayload p) as [|reason'] eqn:Hv';
      try (destruct Hagree as [H1 H2];
           first [specialize (H1 eq_refl) | specialize (H2 eq_refl)];
           discriminate).
    + rewrite (createHandler_valid _ _ _ _ _ _ Hp Heo Hro Hv).
      rewrite (legacy_createHandler_valid _ _ _ _ _ _ Hp Heo Hro Hv').
      destruct (allocLoop 3 0 JUndefined env w) as [[[a sid]|e] w1]; [|agree_tac].
      destruct (3 <=? a); [agree_tac|].
      destruct (effectiveKvTtl eo ro) as [ttl|e]; [|agree_tac].
      destruct (SECRETS_KV_put _ _ _ _ env w1) as [[[]|e] w2]; agree_tac.
    + rewrite (createHandler_invalid _ _ _ _ _ Hp Hv).
      assert (Hl : Legacy.createHandler (Some body) env w
                   = (Ok (Legacy.Same (c_json (ErrorBody reason') 400)), w)).
      { unfold Legacy.createHandler. mrun. now rewrite Hp, Heo, Hro, Hv'. }
      rewrite Hl. agree_tac.
  - unfold createHandler, Legacy.createHandler. mrun. rewrite Hp. agree_tac.
Qed.


